(** * M-Pesa STK push endpoint: the [lipaController] route handler

    A shallow embedding of [controllers/lipa.Controller.js] (the handler
    mounted on [/send] by [index.js]) and of the credential recipe the
    payload's [Timestamp] and [Password] fields are meant to carry.

    JavaScript values are embedded as a small universe [jsval]; numbers are
    IEEE 754 binary64 values ([spec_float]); objects parsed from JSON are
    finite maps from property names to values.  The handler runs in a state
    monad over a [world] that records what it sends back to the caller
    ([res.json]) and which outbound calls it starts ([axios.post]). *)

From Stdlib Require Import ZArith NArith String Ascii List Lia.
From Stdlib.Floats Require Import SpecFloat.
From stdpp Require Import gmap strings list fin_maps.

Set Warnings "-register-all".
Local Open Scope string_scope.

(** ** JavaScript values *)

Inductive jsval : Type :=
| JUndefined
| JNull
| JBool (b : bool)
| JNum (x : spec_float)
| JStr (s : string)
| JArr (items : list jsval)
| JObj (fields : gmap string jsval).

(** The number a JSON integer literal parses to (binary64, round to nearest). *)
Definition num_of_Z (z : Z) : spec_float := binary_normalize 53 1024 z 0 false.

(** ECMAScript [ToBoolean]: what [!v] negates. *)
Definition ToBoolean (v : jsval) : bool :=
  match v with
  | JUndefined | JNull => false
  | JBool b => b
  | JNum (S754_zero _) | JNum S754_nan => false
  | JNum _ => true
  | JStr s => negb (String.eqb s "")
  | JArr _ | JObj _ => true
  end.

(** [x > 0] on numbers. *)
Definition is_positive (x : spec_float) : bool :=
  match x with
  | S754_finite false _ _ | S754_infinity false => true
  | _ => false
  end.

Definition positive_number (v : jsval) : bool :=
  match v with
  | JNum x => is_positive x
  | _ => false
  end.

(** Property read [o.k] on an object without inherited properties of that
    name: an absent property reads as [undefined]. *)
Definition prop (o : gmap string jsval) (k : string) : jsval :=
  default JUndefined (o !! k).

(** ** The credential builder

    The controller takes [timestamp] from a module it names [""] and
    [password] from a binding it never declares; the code that computes
    them is not part of the sources.  The repository's notes give the
    recipe ([pad = n => n.toString().padStart(2, '0')] over the calendar
    fields in Nairobi time, and
    [Buffer.from(shortCode + passkey + timestamp).toString('base64')]);
    the definitions below follow the specification of [build], which agrees
    with those notes.  Strings are sequences of bytes (their UTF-8 form). *)

Module CredentialBuilder.
Local Open Scope N_scope.

(** *** Bytes and base64 *)

(** [Buffer.from(s)]: the bytes of [s]. *)
Definition Buffer_from (s : string) : list N :=
  map N_of_ascii (list_ascii_of_string s).

Definition base64_alphabet : string :=
  "ABCDEFGHIJKLMNOPQRSTUVWXYZabcdefghijklmnopqrstuvwxyz0123456789+/".

Definition sextet_char (i : N) : ascii :=
  nth (N.to_nat i) (list_ascii_of_string base64_alphabet) "="%char.

Definition char_sextet (c : ascii) : option N :=
  let n := N_of_ascii c in
  if (65 <=? n) && (n <=? 90) then Some (n - 65)
  else if (97 <=? n) && (n <=? 122) then Some (n - 71)
  else if (48 <=? n) && (n <=? 57) then Some (n + 4)
  else if n =? 43 then Some 62
  else if n =? 47 then Some 63
  else None.

(** Three bytes give four sextets; a last group of one or two bytes is
    padded with [=]. *)
Fixpoint base64_encode (bs : list N) : list ascii :=
  match bs with
  | [] => []
  | [a] =>
      [sextet_char (a / 4); sextet_char (a mod 4 * 16); "="%char; "="%char]
  | [a; b] =>
      [sextet_char (a / 4); sextet_char (a mod 4 * 16 + b / 16);
       sextet_char (b mod 16 * 4); "="%char]
  | a :: b :: c :: rest =>
      sextet_char (a / 4) :: sextet_char (a mod 4 * 16 + b / 16)
      :: sextet_char (b mod 16 * 4 + c / 64) :: sextet_char (c mod 64)
      :: base64_encode rest
  end.

Fixpoint base64_decode (cs : list ascii) : option (list N) :=
  match cs with
  | [] => Some []
  | c0 :: c1 :: c2 :: c3 :: rest =>
      s0 ← char_sextet c0;
      s1 ← char_sextet c1;
      if Ascii.eqb c3 "=" then
        match rest with
        | [] =>
            if Ascii.eqb c2 "=" then Some [s0 * 4 + s1 / 16]
            else s2 ← char_sextet c2;
                 Some [s0 * 4 + s1 / 16; s1 mod 16 * 16 + s2 / 4]
        | _ :: _ => None
        end
      else
        s2 ← char_sextet c2;
        s3 ← char_sextet c3;
        tail ← base64_decode rest;
        Some (s0 * 4 + s1 / 16 :: s1 mod 16 * 16 + s2 / 4
              :: s2 mod 4 * 64 + s3 :: tail)
  | _ => None
  end.

(** [buf.toString('base64')] and its inverse. *)
Definition toString_base64 (bs : list N) : string :=
  string_of_list_ascii (base64_encode bs).

Definition decode_base64 (s : string) : option (list N) :=
  base64_decode (list_ascii_of_string s).

(** *** Decimal formatting *)

Definition digit_char (d : N) : ascii := ascii_of_N (48 + d).

Definition is_digit (c : ascii) : bool :=
  (48 <=? N_of_ascii c) && (N_of_ascii c <=? 57).

(** Digits of [n], most significant first, in front of [acc]; always at
    least one digit when there is fuel. *)
Fixpoint digits (fuel : nat) (n : N) (acc : list ascii) : list ascii :=
  match fuel with
  | O => acc
  | S fuel' =>
      let acc' := digit_char (n mod 10) :: acc in
      if n / 10 =? 0 then acc' else digits fuel' (n / 10) acc'
  end.

(** [n.toString()] *)
Definition Number_toString (n : N) : list ascii :=
  digits (S (N.to_nat (N.log2 n))) n [].

(** [s.padStart(width, fill)] *)
Definition padStart (width : nat) (fill : ascii) (s : list ascii) : list ascii :=
  repeat fill (width - length s) ++ s.

Definition pad (width : nat) (n : N) : list ascii :=
  padStart width "0"%char (Number_toString n).

(** The number a run of decimal digits denotes. *)
Definition digits_value (cs : list ascii) : N :=
  fold_left (fun v c => 10 * v + (N_of_ascii c - 48)) cs 0.

(** *** Clock readings: calendar time in the provider's timezone *)

Record clock_reading := {
  year : N;
  month : N;      (* 1 .. 12 *)
  day : N;        (* 1 .. 31 *)
  hour : N;       (* 0 .. 23 *)
  minute : N;
  second : N
}.

Definition leap_year (y : N) : bool :=
  ((y mod 4 =? 0) && negb (y mod 100 =? 0)) || (y mod 400 =? 0).

Definition days_in_month (y m : N) : N :=
  if m =? 2 then (if leap_year y then 29 else 28)
  else if (m =? 4) || (m =? 6) || (m =? 9) || (m =? 11) then 30
  else 31.

Definition valid_clock (c : clock_reading) : bool :=
  (year c <=? 9999) &&
  (1 <=? month c) && (month c <=? 12) &&
  (1 <=? day c) && (day c <=? days_in_month (year c) (month c)) &&
  (hour c <=? 23) && (minute c <=? 59) && (second c <=? 59).

(** Modelled from the spec: the timestamp of section 4.1, which the
    controller imports from a module that is not in the sources: calendar
    time as 14 digits, 4-digit year, then month, day, hour (24-hour clock),
    minute and second on 2 digits each, zero-padded, no separators. *)
Definition format_timestamp (c : clock_reading) : list ascii :=
  pad 4 (year c) ++ pad 2 (month c) ++ pad 2 (day c) ++
  pad 2 (hour c) ++ pad 2 (minute c) ++ pad 2 (second c).

(** Reading the fields back from their columns. *)
Definition field (from len : nat) (cs : list ascii) : N :=
  digits_value (take len (drop from cs)).

Definition parse_timestamp (s : string) : clock_reading :=
  let cs := list_ascii_of_string s in
  {| year := field 0 4 cs; month := field 4 2 cs; day := field 6 2 cs;
     hour := field 8 2 cs; minute := field 10 2 cs; second := field 12 2 cs |}.

(** *** [build] *)

Inductive error := ConfigurationError.

Record Credentials := {
  shortCode : string;
  passkey : string;
  timestamp : string;
  derivedPassword : string
}.

(** Modelled from the spec: [build(shortCode, passkey, now)] of section 4.1,
    the source of the controller's [timestamp] and [password], which is not
    in the sources.  An empty short code or passkey is a configuration
    error; otherwise the password is the base64 form of
    [shortCode || passkey || timestamp]. *)
Definition build (shortCode passkey : string) (now : clock_reading)
    : Credentials + error :=
  if String.eqb shortCode "" || String.eqb passkey "" then
    inr ConfigurationError
  else
    let timestamp := string_of_list_ascii (format_timestamp now) in
    inl {| shortCode := shortCode;
           passkey := passkey;
           timestamp := timestamp;
           derivedPassword :=
             toString_base64 (Buffer_from (shortCode ++ passkey ++ timestamp)) |}.

End CredentialBuilder.

(** ** The module scope of [lipa.Controller.js]

    The controller reads five bindings it does not declare
    ([BUSINESS_SHORT_CODE], [password], [amount], [phone]) or imports from an
    unnamed module ([timestamp]), and the process environment.  They are
    taken as given; whatever they hold, they are read once, when the module
    is evaluated. *)

Record module_scope := {
  BUSINESS_SHORT_CODE : jsval;
  password : jsval;
  timestamp : jsval;
  amount : jsval;
  phone : jsval;
  process_env : gmap string string
}.

(** [process.env.NAME]: environment variables are strings, unset ones read
    as [undefined]. *)
Definition env (G : module_scope) (name : string) : jsval :=
  match process_env G !! name with
  | Some s => JStr s
  | None => JUndefined
  end.

Definition mpesa_safaricom_url (G : module_scope) : jsval :=
  env G "MPESA_SANDBOX_URL".

(** The object literal bound to [payload]. *)
Record stk_payload := {
  BusinessShortCode : jsval;
  Password : jsval;
  Timestamp : jsval;
  TransactionType : jsval;
  Amount : jsval;
  PartyA : jsval;
  PartyB : jsval;
  PhoneNumber : jsval;
  CallBackURL : jsval;
  AccountReference : jsval;
  TransactionDesc : jsval
}.

Definition payload (G : module_scope) : stk_payload := {|
  BusinessShortCode := BUSINESS_SHORT_CODE G;
  Password := password G;
  Timestamp := timestamp G;
  TransactionType := JStr "CustomerPayBillOnline";
  Amount := amount G;
  PartyA := phone G;
  PartyB := env G "MPESA_BUSINESS_SHORT_CODE";
  PhoneNumber := phone G;
  CallBackURL := JStr "https://buysasaOnline.com/";
  AccountReference := JStr "BuySasa online shop";
  TransactionDesc := JStr "Payment"
|}.

(** ** Outbound calls and promises *)

Inductive http_method := GET | POST.

(** The optional third argument of [axios.post]. *)
Record axios_config := { headers : gmap string string }.

Record axios_call := {
  call_method : http_method;
  call_url : jsval;
  call_data : stk_payload;
  call_config : option axios_config
}.

(** Headers of the request axios puts on the wire: its defaults for a JSON
    body (those that do not depend on its version), overridden by those of
    the configuration argument when there is one. *)
Definition axios_default_headers : gmap string string :=
  {[ "Accept" := "application/json, text/plain, */*";
     "Content-Type" := "application/json" ]}.

Definition request_headers (c : axios_call) : gmap string string :=
  match call_config c with
  | Some cfg => headers cfg ∪ axios_default_headers
  | None => axios_default_headers
  end.

(** How the provider answers a call, once it does. *)
Record http_response := { status : Z; data : gmap string jsval }.

Inductive settlement :=
| Fulfilled (r : http_response)
| Rejected (reason : jsval).

(** A promise returned by [axios.post]; [awaited] tells whether the code
    that holds it registered a reaction ([await], [then], [catch]). *)
Record promise := { started : axios_call; awaited : bool }.

(** ** The handler's world *)

Record world := {
  now : Z;                                   (* clock, ms since the epoch *)
  provider : axios_call -> settlement;       (* the network's answers *)
  sent : list (gmap string jsval);           (* bodies passed to res.json *)
  pending : list promise                     (* promises created so far *)
}.

Definition Handler (A : Type) : Type := world -> A * world.

#[global] Instance Handler_ret : MRet Handler := fun A (a : A) w => (a, w).

#[global] Instance Handler_bind : MBind Handler :=
  fun A B (k : A -> Handler B) (m : Handler A) w =>
    let (a, w') := m w in k a w'.

(** [res.json(body)] *)
Definition res_json (body : gmap string jsval) : Handler unit :=
  fun w => (tt, {| now := now w; provider := provider w;
                   sent := sent w ++ [body]; pending := pending w |}).

(** [axios.post(url, data)] / [axios.post(url, data, config)]: starts the
    request and returns its promise (here: its index). *)
Definition axios_post (url : jsval) (body : stk_payload)
    (config : option axios_config) : Handler nat :=
  fun w =>
    let c := {| call_method := POST; call_url := url;
                call_data := body; call_config := config |} in
    (length (pending w),
     {| now := now w; provider := provider w; sent := sent w;
        pending := pending w ++ [{| started := c; awaited := false |}] |}).

(** [try { await p } catch ...]: registers a reaction on the promise and
    yields its settlement to the code that follows. *)
Definition await (p : nat) : Handler (option settlement) :=
  fun w =>
    match pending w !! p with
    | Some pr =>
        (Some (provider w (started pr)),
         {| now := now w; provider := provider w; sent := sent w;
            pending := <[p := {| started := started pr; awaited := true |}]>
                         (pending w) |})
    | None => (None, w)
    end.

(** ** The route handler *)

(** [index.js] installs [express.json()] and [bodyParser.json()] ahead of
    the controller, so [req.body] is the object parsed from the JSON body. *)
Record request := { body : gmap string jsval }.

Definition validation_failure : gmap string jsval :=
  {[ "succcess" := JBool false;
     "msg" := JStr "Please provide all the fields" ]}.

Definition lipaController (G : module_scope) (req : request) : Handler unit :=
  let phoneNumber := prop (body req) "phoneNumber" in
  let amount := prop (body req) "amount" in
  if negb (ToBoolean phoneNumber) || negb (ToBoolean amount) then
    res_json validation_failure
  else
    axios_post (mpesa_safaricom_url G) (payload G) None;;
    mret tt.

(** ** Observations on a finished run *)

Definition fresh (t : Z) (N : axios_call -> settlement) : world :=
  {| now := t; provider := N; sent := []; pending := [] |}.

(** The world the handler leaves behind when it serves [req] at time [t]
    against a provider behaving as [N]. *)
Definition serve (G : module_scope) (N : axios_call -> settlement) (t : Z)
    (req : request) : world :=
  snd (lipaController G req (fresh t N)).

(** What the HTTP caller gets: the first body handed to [res.json], if any
    (Express ignores the value the handler returns). *)
Definition caller_receives (w : world) : option (gmap string jsval) :=
  head (sent w).

Definition outbound (w : world) : list axios_call :=
  map started (pending w).

(** Rejections nobody reacts to: Node reports each as [unhandledRejection],
    which by default terminates the process. *)
Definition unhandled_rejections (w : world) : list jsval :=
  omap (fun pr =>
          if awaited pr then None
          else match provider w (started pr) with
               | Rejected e => Some e
               | Fulfilled _ => None
               end)
       (pending w).

(** The handler's presence check. *)
Definition passes_check (req : request) : bool :=
  ToBoolean (prop (body req) "phoneNumber") &&
  ToBoolean (prop (body req) "amount").

(** ** Sample data: the provider's test environment *)

Definition test_scope : module_scope := {|
  BUSINESS_SHORT_CODE := JStr "174379";
  password := JStr "MTc0Mzc5YmZiMjc5ZjlhYTliZGJjZjE1OGU5N2RkNzFhNDY3Y2QyZTBjODkzMDU5YjEwZjc4ZTZiNzJhZGExZWQyYzkxOTIwMjUxMTI0MTUzMDQ1";
  timestamp := JStr "20251124153045";
  amount := JNum (num_of_Z 1);
  phone := JStr "254708374149";
  process_env :=
    {[ "MPESA_SANDBOX_URL" :=
         "https://sandbox.safaricom.co.ke/mpesa/stkpush/v1/processrequest";
       "MPESA_BUSINESS_SHORT_CODE" := "174379";
       "PORT" := "3000" ]}
|}.

(** 24 November 2025, 15:30:45 in Nairobi. *)
Definition test_clock : CredentialBuilder.clock_reading :=
  {| CredentialBuilder.year := 2025; CredentialBuilder.month := 11;
     CredentialBuilder.day := 24; CredentialBuilder.hour := 15;
     CredentialBuilder.minute := 30; CredentialBuilder.second := 45 |}.

(** [{phoneNumber: "254708374149", amount: 1, accountReference: "Test001",
      transactionDescription: "Testing"}] *)
Definition test_order : request := {|
  body := {[ "phoneNumber" := JStr "254708374149";
             "amount" := JNum (num_of_Z 1);
             "accountReference" := JStr "Test001";
             "transactionDescription" := JStr "Testing" ]}
|}.

(** [{phoneNumber: "254999999999", amount: 250}] *)
Definition other_order : request := {|
  body := {[ "phoneNumber" := JStr "254999999999";
             "amount" := JNum (num_of_Z 250) ]}
|}.

(** [{phoneNumber: "", amount: 10}] *)
Definition empty_phone_order : request := {|
  body := {[ "phoneNumber" := JStr ""; "amount" := JNum (num_of_Z 10) ]}
|}.

(** [{phoneNumber: "254708374149", amount: 0}] *)
Definition zero_amount_order : request := {|
  body := {[ "phoneNumber" := JStr "254708374149";
             "amount" := JNum (num_of_Z 0) ]}
|}.

(** [{phoneNumber: "254708374149", amount: -5}] *)
Definition negative_amount_order : request := {|
  body := {[ "phoneNumber" := JStr "254708374149";
             "amount" := JNum (num_of_Z (-5)) ]}
|}.

(** A provider that accepts every request. *)
Definition accepting (c : axios_call) : settlement :=
  Fulfilled {| status := 200;
               data := {[ "ResponseCode" := JStr "0";
                          "CheckoutRequestID" := JStr "ws_CO_1" ]} |}.

(** A provider that answers HTTP 400: axios rejects with the error body. *)
Definition bad_request : jsval :=
  JObj {[ "errorCode" := JStr "400.002.02";
          "errorMessage" := JStr "Bad Request" ]}.

Definition refusing (c : axios_call) : settlement := Rejected bad_request.

(** The one call the handler makes when the check passes. *)
Definition stk_call (G : module_scope) : axios_call :=
  {| call_method := POST; call_url := mpesa_safaricom_url G;
     call_data := payload G; call_config := None |}.

(** A property that is absent, [null] or the empty string. *)
Definition missing_or_empty (o : gmap string jsval) (k : string) : bool :=
  match o !! k with
  | None | Some JUndefined | Some JNull => true
  | Some (JStr s) => String.eqb s ""
  | Some _ => false
  end.

(** ** Requests served one after the other

    The handler contains no [await]: a run completes before the process
    looks at the next request, so the requests a process receives are
    served in sequence over one world. *)

Fixpoint serve_all (G : module_scope) (reqs : list request) : Handler unit :=
  match reqs with
  | [] => mret tt
  | req :: rest => lipaController G req;; serve_all G rest
  end.

(** A process started without [MPESA_SANDBOX_URL] and
    [MPESA_BUSINESS_SHORT_CODE] in its environment. *)
Definition unconfigured_scope : module_scope := {|
  BUSINESS_SHORT_CODE := JStr "174379";
  password := password test_scope;
  timestamp := JStr "20251124153045";
  amount := JNum (num_of_Z 1);
  phone := JStr "254708374149";
  process_env := {[ "PORT" := "3000" ]}
|}.

(** [{phoneNumber: "254708374149", amount: "abc"}] *)
Definition text_amount_order : request := {|
  body := {[ "phoneNumber" := JStr "254708374149"; "amount" := JStr "abc" ]}
|}.

(** ** The password recipe of the notes

    [function generateMpesaPassword(shortCode, passkey, timestamp)], also
    given as the one-liner
    [Buffer.from(shortcode + passkey + timestamp).toString('base64')]. *)

Definition generateMpesaPassword (shortCode passkey timestamp : string)
    : string :=
  let dataToEncode := shortCode ++ passkey ++ timestamp in
  CredentialBuilder.toString_base64 (CredentialBuilder.Buffer_from dataToEncode).

(** A character of base64 text: a letter of the alphabet or the padding. *)
Definition base64_char (c : ascii) : bool :=
  match CredentialBuilder.char_sextet c with
  | Some _ => true
  | None => Ascii.eqb c "="
  end.

(** ** Time values (ECMAScript, "Time Values and Time Range")

    What [new Date(v)] and the [getUTC...] methods compute.  A time value
    is a number of milliseconds since the epoch; the calendar is the
    proleptic Gregorian one. *)

Module DateTime.
Local Open Scope Z_scope.

Definition msPerDay : Z := 86400000.
Definition msPerHour : Z := 3600000.
Definition msPerMinute : Z := 60000.
Definition msPerSecond : Z := 1000.

Definition Day (t : Z) : Z := t / msPerDay.

Definition DaysInYear (y : Z) : Z :=
  if negb (y mod 4 =? 0) then 365
  else if negb (y mod 100 =? 0) then 366
  else if negb (y mod 400 =? 0) then 365
  else 366.

Definition DayFromYear (y : Z) : Z :=
  365 * (y - 1970) + (y - 1969) / 4 - (y - 1901) / 100 + (y - 1601) / 400.

Definition TimeFromYear (y : Z) : Z := msPerDay * DayFromYear y.

(** The largest [y] with [TimeFromYear y <= t]: a year is 365.2425 days on
    average, which gives a year that is the one looked for or the next. *)
Definition YearFromTime (t : Z) : Z :=
  let y := 1970 + (400 * Day t + 506) / 146097 in
  if TimeFromYear y <=? t then y else y - 1.

Definition InLeapYear (t : Z) : Z :=
  if DaysInYear (YearFromTime t) =? 366 then 1 else 0.

Definition DayWithinYear (t : Z) : Z := Day t - DayFromYear (YearFromTime t).

Definition MonthFromTime (t : Z) : Z :=
  let d := DayWithinYear t in
  let leap := InLeapYear t in
  if d <? 31 then 0
  else if d <? 59 + leap then 1
  else if d <? 90 + leap then 2
  else if d <? 120 + leap then 3
  else if d <? 151 + leap then 4
  else if d <? 181 + leap then 5
  else if d <? 212 + leap then 6
  else if d <? 243 + leap then 7
  else if d <? 273 + leap then 8
  else if d <? 304 + leap then 9
  else if d <? 334 + leap then 10
  else 11.

Definition DateFromTime (t : Z) : Z :=
  let d := DayWithinYear t in
  let leap := InLeapYear t in
  let m := MonthFromTime t in
  if m =? 0 then d + 1
  else if m =? 1 then d - 30
  else if m =? 2 then d - 58 - leap
  else if m =? 3 then d - 89 - leap
  else if m =? 4 then d - 119 - leap
  else if m =? 5 then d - 150 - leap
  else if m =? 6 then d - 180 - leap
  else if m =? 7 then d - 211 - leap
  else if m =? 8 then d - 242 - leap
  else if m =? 9 then d - 272 - leap
  else if m =? 10 then d - 303 - leap
  else d - 333 - leap.

(** Day of the year on which month [m] (0 to 11) starts, and the number of
    days of that month, in a leap ([leap = 1]) or common ([leap = 0]) year:
    the thresholds [MonthFromTime] compares with. *)
Definition month_start (leap m : Z) : Z :=
  if m =? 0 then 0
  else if m =? 1 then 31
  else if m =? 2 then 59 + leap
  else if m =? 3 then 90 + leap
  else if m =? 4 then 120 + leap
  else if m =? 5 then 151 + leap
  else if m =? 6 then 181 + leap
  else if m =? 7 then 212 + leap
  else if m =? 8 then 243 + leap
  else if m =? 9 then 273 + leap
  else if m =? 10 then 304 + leap
  else 334 + leap.

Definition month_days (leap m : Z) : Z :=
  if m =? 11 then 31 else month_start leap (m + 1) - month_start leap m.

Definition HourFromTime (t : Z) : Z := (t / msPerHour) mod 24.
Definition MinFromTime (t : Z) : Z := (t / msPerMinute) mod 60.
Definition SecFromTime (t : Z) : Z := (t / msPerSecond) mod 60.

(** [TimeClip]: a time value further than 8.64e15 ms from the epoch is
    [NaN], the time value of an invalid date. *)
Definition TimeClip (v : Z) : option Z :=
  if Z.abs v >? 8640000000000000 then None else Some v.

End DateTime.

(** ** The timestamp recipe of the notes (the one with [padStart])

    [[
    const getMpesaTimestamp = () => {
      const d = new Date();
      const eat = new Date(d.getTime() + 3 * 60 * 60 * 1000); // Force UTC+3
      const pad = n => n.toString().padStart(2, '0');
      return `${eat.getUTCFullYear()}${pad(eat.getUTCMonth() + 1)}...`;
    };
    ]]

    The numbers at hand are integers or [NaN] ([None]); [now] is the time
    value of [new Date()]. *)

Module TimestampRecipe.
Local Open Scope Z_scope.

(** A getter of a date whose time value is [tv]. *)
Definition getter (f : Z -> Z) (tv : option Z) : option Z := f <$> tv.

Definition getUTCFullYear := getter DateTime.YearFromTime.
Definition getUTCMonth := getter DateTime.MonthFromTime.
Definition getUTCDate := getter DateTime.DateFromTime.
Definition getUTCHours := getter DateTime.HourFromTime.
Definition getUTCMinutes := getter DateTime.MinFromTime.
Definition getUTCSeconds := getter DateTime.SecFromTime.

(** [n.toString()], also what a template literal does with [n]. *)
Definition Number_toString (n : option Z) : list ascii :=
  match n with
  | None => list_ascii_of_string "NaN"
  | Some z =>
      if z <? 0
      then "-"%char :: CredentialBuilder.Number_toString (Z.to_N (- z))
      else CredentialBuilder.Number_toString (Z.to_N z)
  end.

Definition pad (n : option Z) : list ascii :=
  CredentialBuilder.padStart 2 "0"%char (Number_toString n).

Definition getMpesaTimestamp (now : Z) : string :=
  let d := Some now in
  let eat := d ≫= fun getTime => DateTime.TimeClip (getTime + 3 * 60 * 60 * 1000) in
  string_of_list_ascii
    (Number_toString (getUTCFullYear eat)
     ++ pad ((fun m => m + 1) <$> getUTCMonth eat)
     ++ pad (getUTCDate eat)
     ++ pad (getUTCHours eat)
     ++ pad (getUTCMinutes eat)
     ++ pad (getUTCSeconds eat)).

(** The calendar fields the recipe prints. *)
Definition nairobi_clock (now : Z) : CredentialBuilder.clock_reading :=
  let eat := now + 3 * 60 * 60 * 1000 in
  {| CredentialBuilder.year := Z.to_N (DateTime.YearFromTime eat);
     CredentialBuilder.month := Z.to_N (DateTime.MonthFromTime eat + 1);
     CredentialBuilder.day := Z.to_N (DateTime.DateFromTime eat);
     CredentialBuilder.hour := Z.to_N (DateTime.HourFromTime eat);
     CredentialBuilder.minute := Z.to_N (DateTime.MinFromTime eat);
     CredentialBuilder.second := Z.to_N (DateTime.SecFromTime eat) |}.

End TimestampRecipe.

(** ** The application of [index.js]

    [[
    app.use(cors());
    app.use(express.json());
    app.use(bodyParser.json());
    app.use("public", express.static(__dirname));
    app.get("/", (req, res) => { res.send("<h1>implement mpesa stk push</h1>"); });
    app.use('/send', lipaController);
    ]]

    Express offers a request to these layers in this order.  The request is
    given by its method, the path of its URL (without the query string) and
    the body the JSON parsers produced. *)

Module App.

Inductive verb := GET | HEAD | POST | PUT | PATCH | DELETE | OPTIONS.

Record incoming := { method : verb; pathname : string; req : request }.

(** What the caller gets back. *)
Inductive answer :=
| NoContent                               (* 204, from cors *)
| File                                    (* a file of the static directory *)
| Html (page : string) (with_body : bool) (* res.send(page) *)
| Json (body : gmap string jsval)         (* res.json(body) *)
| Unanswered                              (* no response, no next() *)
| NotFound.                               (* 404, no layer took the request *)

(** Routes are matched without regard to the case of ASCII letters. *)
Definition lower (c : ascii) : ascii :=
  let n := N_of_ascii c in
  if ((65 <=? n) && (n <=? 90))%N then ascii_of_N (n + 32) else c.

Fixpoint after_prefix (prefix s : list ascii) : option (list ascii) :=
  match prefix, s with
  | [], _ => Some s
  | _ :: _, [] => None
  | a :: prefix', b :: s' =>
      if Ascii.eqb (lower a) (lower b) then after_prefix prefix' s' else None
  end.

(** [app.use(mount, ...)], for a mount path of plain characters: the layer
    takes the paths that continue [mount] with nothing or with a [/]
    (the regular expression [^mount\/?(?=\/|$)], case-insensitive). *)
Definition mounted (mount path : string) : bool :=
  match after_prefix (list_ascii_of_string mount) (list_ascii_of_string path) with
  | Some [] => true
  | Some (c :: _) => Ascii.eqb c "/"
  | None => false
  end.

(** [app.get("/", ...)]: the path [/] and nothing else ([^\/?$]). *)
Definition at_root (path : string) : bool :=
  String.eqb path "/" || String.eqb path "".

(** A route declared with [app.get] also takes HEAD requests. *)
Definition reads (v : verb) : bool :=
  match v with GET | HEAD => true | _ => false end.

Definition home_page : string := "<h1>implement mpesa stk push</h1>".

(** [lipaController] as a layer: what it passes to [res.json] in this run,
    if anything, is the answer. *)
Definition lipa_layer (G : module_scope) (r : request) : Handler answer :=
  fun w =>
    let (_, w') := lipaController G r w in
    (match drop (length (sent w)) (sent w') with
     | body :: _ => Json body
     | [] => Unanswered
     end, w').

(** The layers in order.  [static_has] tells which paths below the static
    mount name a file of the directory. *)
Definition dispatch (G : module_scope) (static_has : string -> bool)
    (r : incoming) : Handler answer :=
  (* cors(): answers a preflight itself, lets everything else through *)
  if match method r with OPTIONS => true | _ => false end then mret NoContent
  (* express.json(), bodyParser.json(): [req r] is what they parsed *)
  (* app.use("public", express.static(__dirname)) *)
  else if mounted "public" (pathname r) && reads (method r)
          && static_has (pathname r) then mret File
  (* app.get("/", ...) *)
  else if reads (method r) && at_root (pathname r) then
    mret (Html home_page
            (match method r with HEAD => false | _ => true end))
  (* app.use('/send', lipaController) *)
  else if mounted "/send" (pathname r) then lipa_layer G (req r)
  else mret NotFound.

(** The answer to, and the world left by, one request in a fresh world. *)
Definition handle (G : module_scope) (static_has : string -> bool)
    (N : axios_call -> settlement) (t : Z) (r : incoming) : answer * world :=
  dispatch G static_has r (fresh t N).

End App.

(** * Properties of the route handler *)

Section Handler.

Variables (G : module_scope) (N : axios_call -> settlement) (t : Z).

Lemma serve_refused (req : request) :
  passes_check req = false ->
  serve G N t req =
    {| now := t; provider := N; sent := [validation_failure]; pending := [] |}.
Proof.
  unfold passes_check, serve, lipaController. intros H.
  apply andb_false_iff in H.
  destruct H as [-> | ->]; rewrite ?orb_true_r; reflexivity.
Qed.

Lemma serve_forwarded (req : request) :
  passes_check req = true ->
  serve G N t req =
    {| now := t; provider := N; sent := [];
       pending := [{| started := stk_call G; awaited := false |}] |}.
Proof.
  unfold passes_check, serve, lipaController. intros H.
  apply andb_true_iff in H. destruct H as [-> ->]. reflexivity.
Qed.

(** Had the handler awaited its promise, the rejection would have been
    observed. *)
Lemma awaited_rejection_observed (req : request) :
  passes_check req = true ->
  unhandled_rejections (snd (await 0 (serve G N t req))) = [].
Proof.
  intros H. rewrite serve_forwarded by assumption. reflexivity.
Qed.

Lemma missing_or_empty_falsy (o : gmap string jsval) (k : string) :
  missing_or_empty o k = true -> ToBoolean (prop o k) = false.
Proof.
  unfold missing_or_empty, prop.
  destruct (o !! k) as [[ | | | | s | | ]|]; simpl; try discriminate; auto.
  intros ->. reflexivity.
Qed.

End Handler.

(** ** What the caller gets and what goes out *)

(** C2: a request whose [phoneNumber] or [amount] is missing or empty is
    answered with the validation failure, and no outbound call is made. *)
Theorem missing_field_refused
    (G : module_scope) (N : axios_call -> settlement) (t : Z) (req : request) :
  missing_or_empty (body req) "phoneNumber" = true \/
  missing_or_empty (body req) "amount" = true ->
  caller_receives (serve G N t req) = Some validation_failure /\
  outbound (serve G N t req) = [].
Proof.
  intros H. rewrite serve_refused; [split; reflexivity|].
  unfold passes_check. apply andb_false_iff.
  destruct H as [H | H]; [left | right]; now apply missing_or_empty_falsy.
Qed.

Lemma missing_field_refused_empty_phone :
  caller_receives (serve test_scope accepting 0 empty_phone_order)
    = Some validation_failure /\
  outbound (serve test_scope accepting 0 empty_phone_order) = [].
Proof.
  apply (missing_field_refused test_scope accepting 0 empty_phone_order).
  left. vm_compute. reflexivity.
Defined.

(** C3, as the handler has it: a request whose [amount] is missing or falsy
    (absent, [null], [false], the empty string, zero, [NaN]) is answered
    with the validation failure, and no outbound call is made. *)
Theorem falsy_amount_refused
    (G : module_scope) (N : axios_call -> settlement) (t : Z) (req : request) :
  ToBoolean (prop (body req) "amount") = false ->
  caller_receives (serve G N t req) = Some validation_failure /\
  outbound (serve G N t req) = [].
Proof.
  intros H. rewrite serve_refused; [split; reflexivity|].
  unfold passes_check. rewrite H. apply andb_false_r.
Qed.

Lemma falsy_amount_refused_zero :
  caller_receives (serve test_scope accepting 0 zero_amount_order)
    = Some validation_failure /\
  outbound (serve test_scope accepting 0 zero_amount_order) = [].
Proof.
  apply (falsy_amount_refused test_scope accepting 0 zero_amount_order).
  vm_compute. reflexivity.
Defined.

(** C3 fails for a negative amount: [-5] is not a positive number, yet the
    request is not refused and one outbound call is made. *)
Lemma negative_amount_forwarded :
  positive_number (prop (body negative_amount_order) "amount") = false /\
  caller_receives (serve test_scope accepting 0 negative_amount_order) = None /\
  outbound (serve test_scope accepting 0 negative_amount_order)
    = [stk_call test_scope].
Proof.
  split; [vm_compute; reflexivity|].
  rewrite serve_forwarded by (vm_compute; reflexivity).
  split; reflexivity.
Qed.

(** C1, as the handler has it: when the check passes, the promise of the
    outbound call is left without a reaction and nothing is sent to the
    caller, whatever the provider answers. *)
Theorem outcome_not_propagated
    (G : module_scope) (N : axios_call -> settlement) (t : Z) (req : request) :
  passes_check req = true ->
  caller_receives (serve G N t req) = None /\
  pending (serve G N t req) = [{| started := stk_call G; awaited := false |}].
Proof.
  intros H. rewrite serve_forwarded by assumption. split; reflexivity.
Qed.

Lemma outcome_not_propagated_accepted :
  caller_receives (serve test_scope accepting 0 test_order) = None /\
  pending (serve test_scope accepting 0 test_order)
    = [{| started := stk_call test_scope; awaited := false |}].
Proof.
  apply (outcome_not_propagated test_scope accepting 0 test_order).
  vm_compute. reflexivity.
Defined.

(** C4, as the handler has it: when the check passes, exactly one request
    goes out; it is a POST whose body is [payload], and it carries no
    [Authorization] header. *)
Theorem post_without_authorization
    (G : module_scope) (N : axios_call -> settlement) (t : Z) (req : request) :
  passes_check req = true ->
  exists c,
    outbound (serve G N t req) = [c] /\
    call_method c = POST /\
    call_data c = payload G /\
    request_headers c !! "Authorization" = None.
Proof.
  intros H. rewrite serve_forwarded by assumption.
  exists (stk_call G). repeat split.
Qed.

Lemma post_without_authorization_example :
  exists c,
    outbound (serve test_scope accepting 0 test_order) = [c] /\
    call_method c = POST /\
    call_data c = payload test_scope /\
    request_headers c !! "Authorization" = None.
Proof.
  apply (post_without_authorization test_scope accepting 0 test_order).
  vm_compute. reflexivity.
Defined.

(** C5, as the handler has it: two requests served one second apart go out
    with the same [Timestamp] and the same [Password], those the module
    scope held when [payload] was built. *)
Theorem timestamp_reused
    (G : module_scope) (N : axios_call -> settlement) (t : Z)
    (req1 req2 : request) :
  passes_check req1 = true ->
  passes_check req2 = true ->
  map (fun c => (Timestamp (call_data c), Password (call_data c)))
      (outbound (serve G N t req1))
    = [(timestamp G, password G)] /\
  map (fun c => (Timestamp (call_data c), Password (call_data c)))
      (outbound (serve G N (t + 1000) req2))
    = [(timestamp G, password G)].
Proof.
  intros H1 H2. rewrite !serve_forwarded by assumption. split; reflexivity.
Qed.

Lemma timestamp_reused_example :
  map (fun c => (Timestamp (call_data c), Password (call_data c)))
      (outbound (serve test_scope accepting 0 test_order))
    = [(timestamp test_scope, password test_scope)] /\
  map (fun c => (Timestamp (call_data c), Password (call_data c)))
      (outbound (serve test_scope accepting (0 + 1000) other_order))
    = [(timestamp test_scope, password test_scope)].
Proof.
  apply (timestamp_reused test_scope accepting 0 test_order other_order);
    vm_compute; reflexivity.
Defined.

(** C7 fails: the account reference of the request is not the one in the
    payload, and two requests that differ in amount and phone number go out
    with the same [Amount], [PartyA] and [PhoneNumber]. *)
Lemma payload_ignores_request :
  passes_check test_order = true /\
  passes_check other_order = true /\
  prop (body test_order) "accountReference" = JStr "Test001" /\
  map (fun c => AccountReference (call_data c))
      (outbound (serve test_scope accepting 0 test_order))
    = [JStr "BuySasa online shop"] /\
  prop (body test_order) "amount" <> prop (body other_order) "amount" /\
  prop (body test_order) "phoneNumber"
    <> prop (body other_order) "phoneNumber" /\
  map (fun c => (Amount (call_data c), PartyA (call_data c),
                 PhoneNumber (call_data c)))
      (outbound (serve test_scope accepting 0 test_order))
    = map (fun c => (Amount (call_data c), PartyA (call_data c),
                     PhoneNumber (call_data c)))
          (outbound (serve test_scope accepting 0 other_order)).
Proof.
  assert (H1 : passes_check test_order = true) by (vm_compute; reflexivity).
  assert (H2 : passes_check other_order = true) by (vm_compute; reflexivity).
  rewrite !serve_forwarded by assumption.
  repeat split; try (vm_compute; reflexivity); vm_compute; discriminate.
Qed.

(** C7, as the handler has it: when the check passes, the payload that goes
    out has one value as paying party and as prompted phone, the configured
    business short code as payee, the fixed transaction type, and fixed
    literals as callback URL, account reference and transaction
    description. *)
Theorem payload_fixed_fields
    (G : module_scope) (N : axios_call -> settlement) (t : Z) (req : request) :
  passes_check req = true ->
  exists c,
    outbound (serve G N t req) = [c] /\
    PartyA (call_data c) = PhoneNumber (call_data c) /\
    PartyB (call_data c) = env G "MPESA_BUSINESS_SHORT_CODE" /\
    TransactionType (call_data c) = JStr "CustomerPayBillOnline" /\
    CallBackURL (call_data c) = JStr "https://buysasaOnline.com/" /\
    AccountReference (call_data c) = JStr "BuySasa online shop" /\
    TransactionDesc (call_data c) = JStr "Payment".
Proof.
  intros H. rewrite serve_forwarded by assumption.
  exists (stk_call G). repeat split.
Qed.

Lemma payload_fixed_fields_example :
  exists c,
    outbound (serve test_scope accepting 0 test_order) = [c] /\
    PartyA (call_data c) = PhoneNumber (call_data c) /\
    PartyB (call_data c) = env test_scope "MPESA_BUSINESS_SHORT_CODE" /\
    TransactionType (call_data c) = JStr "CustomerPayBillOnline" /\
    CallBackURL (call_data c) = JStr "https://buysasaOnline.com/" /\
    AccountReference (call_data c) = JStr "BuySasa online shop" /\
    TransactionDesc (call_data c) = JStr "Payment".
Proof.
  apply (payload_fixed_fields test_scope accepting 0 test_order).
  vm_compute. reflexivity.
Defined.

(** C8, as the handler has it: when the check passes and the provider
    rejects the call, the caller is sent nothing and the rejection is left
    unhandled. *)
Theorem rejection_unhandled
    (G : module_scope) (N : axios_call -> settlement) (t : Z) (req : request)
    (e : jsval) :
  passes_check req = true ->
  N (stk_call G) = Rejected e ->
  caller_receives (serve G N t req) = None /\
  unhandled_rejections (serve G N t req) = [e].
Proof.
  intros H HN. rewrite serve_forwarded by assumption.
  split; [reflexivity|].
  unfold unhandled_rejections; simpl. rewrite HN. reflexivity.
Qed.

Lemma rejection_unhandled_bad_request :
  caller_receives (serve test_scope refusing 0 test_order) = None /\
  unhandled_rejections (serve test_scope refusing 0 test_order) = [bad_request].
Proof.
  apply (rejection_unhandled test_scope refusing 0 test_order bad_request).
  - vm_compute. reflexivity.
  - reflexivity.
Defined.

(** C9, as the handler has it: no request is ever answered with an object
    that has a [success] field; the only answer there is spells the field
    [succcess]. *)
Theorem no_success_field
    (G : module_scope) (N : axios_call -> settlement) (t : Z) (req : request) :
  (caller_receives (serve G N t req) ≫= lookup "success") = None /\
  (passes_check req = false /\
   (caller_receives (serve G N t req) ≫= lookup "succcess")
     = Some (JBool false)
   \/
   passes_check req = true /\ caller_receives (serve G N t req) = None).
Proof.
  destruct (passes_check req) eqn:H.
  - rewrite serve_forwarded by assumption. split; [reflexivity|].
    right. split; reflexivity.
  - rewrite serve_refused by assumption. split; [vm_compute; reflexivity|].
    left. split; [reflexivity|]. vm_compute. reflexivity.
Qed.

(** C10: any two requests that pass the presence check go out with the same
    body, the [payload] built from the module scope. *)
Theorem outbound_body_fixed
    (G : module_scope) (N1 N2 : axios_call -> settlement) (t1 t2 : Z)
    (req1 req2 : request) :
  passes_check req1 = true ->
  passes_check req2 = true ->
  map call_data (outbound (serve G N1 t1 req1)) = [payload G] /\
  map call_data (outbound (serve G N2 t2 req2)) = [payload G].
Proof.
  intros H1 H2. rewrite !serve_forwarded by assumption. split; reflexivity.
Qed.

Lemma outbound_body_fixed_example :
  map call_data (outbound (serve test_scope accepting 0 test_order))
    = [payload test_scope] /\
  map call_data (outbound (serve test_scope refusing 86400000 other_order))
    = [payload test_scope].
Proof.
  apply (outbound_body_fixed test_scope accepting refusing 0 86400000
           test_order other_order); vm_compute; reflexivity.
Defined.

(** * Properties of the credential builder *)

Section Base64.

Import CredentialBuilder.
Local Open Scope N_scope.

Lemma list_ind3 {A} (P : list A -> Prop) :
  P [] ->
  (forall a, P [a]) ->
  (forall a b, P [a; b]) ->
  (forall a b c l, P l -> P (a :: b :: c :: l)) ->
  forall l, P l.
Proof.
  intros H0 H1 H2 H3 l.
  cut (P l /\ (forall a, P (a :: l)) /\ (forall a b, P (a :: b :: l)));
    [tauto|].
  induction l as [|x l (IH0 & IH1 & IH2)]; auto.
Qed.

Lemma sextet_checked :
  forallb (fun n =>
             match char_sextet (sextet_char (N.of_nat n)) with
             | Some j => (j =? N.of_nat n) &&
                         negb (Ascii.eqb (sextet_char (N.of_nat n)) "=")
             | None => false
             end) (seq 0 64) = true.
Proof. vm_compute. reflexivity. Qed.

Lemma sextet_inv (i : N) :
  i < 64 ->
  char_sextet (sextet_char i) = Some i /\
  Ascii.eqb (sextet_char i) "=" = false.
Proof.
  intros Hi. pose proof sextet_checked as H.
  rewrite forallb_forall in H. specialize (H (N.to_nat i)).
  rewrite N2Nat.id in H.
  destruct (char_sextet (sextet_char i)) as [j|].
  - assert (Hin : In (N.to_nat i) (seq 0 64)) by (apply in_seq; lia).
    apply H in Hin. apply andb_true_iff in Hin as [Hj Hne].
    apply N.eqb_eq in Hj. apply negb_true_iff in Hne. subst. auto.
  - assert (Hin : In (N.to_nat i) (seq 0 64)) by (apply in_seq; lia).
    apply H in Hin. discriminate.
Qed.

Ltac euclid := zify; Z.to_euclidean_division_equations; lia.

Lemma base64_roundtrip (bs : list N) :
  Forall (fun b => b < 256) bs ->
  base64_decode (base64_encode bs) = Some bs.
Proof.
  induction bs as [|a|a b|a b c rest IH] using list_ind3; intros Hb.
  - reflexivity.
  - apply Forall_cons_1 in Hb as [Ha _].
    cbn [base64_encode base64_decode].
    destruct (sextet_inv (a / 4)) as [-> _]; [euclid|].
    destruct (sextet_inv (a mod 4 * 16)) as [-> _]; [euclid|].
    cbn. do 2 f_equal. euclid.
  - apply Forall_cons_1 in Hb as [Ha Hb].
    apply Forall_cons_1 in Hb as [Hb _].
    cbn [base64_encode base64_decode].
    destruct (sextet_inv (a / 4)) as [-> _]; [euclid|].
    destruct (sextet_inv (a mod 4 * 16 + b / 16)) as [-> _]; [euclid|].
    destruct (sextet_inv (b mod 16 * 4)) as [-> ->]; [euclid|].
    cbn. f_equal. f_equal; [euclid|]. f_equal. euclid.
  - apply Forall_cons_1 in Hb as [Ha Hb].
    apply Forall_cons_1 in Hb as [Hb Hc].
    apply Forall_cons_1 in Hc as [Hc Hrest].
    cbn [base64_encode base64_decode].
    destruct (sextet_inv (a / 4)) as [-> _]; [euclid|].
    destruct (sextet_inv (a mod 4 * 16 + b / 16)) as [-> _]; [euclid|].
    destruct (sextet_inv (b mod 16 * 4 + c / 64)) as [-> _]; [euclid|].
    destruct (sextet_inv (c mod 64)) as [-> ->]; [euclid|].
    rewrite (IH Hrest). cbn.
    f_equal. f_equal; [euclid|]. f_equal; [euclid|]. f_equal. euclid.
Qed.

End Base64.

Section Decimal.

Import CredentialBuilder.
Local Open Scope N_scope.

Ltac euclid := zify; Z.to_euclidean_division_equations; lia.

Lemma digit_char_code (d : N) : d < 10 -> N_of_ascii (digit_char d) = 48 + d.
Proof. intros H. unfold digit_char. apply N_ascii_embedding. lia. Qed.

Lemma digit_char_is_digit (d : N) : d < 10 -> is_digit (digit_char d) = true.
Proof.
  intros H. unfold is_digit. rewrite digit_char_code by assumption.
  apply andb_true_iff. split; apply N.leb_le; lia.
Qed.

Lemma digit_char_value (d : N) : d < 10 -> N_of_ascii (digit_char d) - 48 = d.
Proof. intros H. rewrite digit_char_code by assumption. lia. Qed.

Lemma digits_value_app (l : list ascii) (v : N) :
  fold_left (fun v c => 10 * v + (N_of_ascii c - 48)) l v
    = v * 10 ^ N.of_nat (length l) + digits_value l.
Proof.
  unfold digits_value. revert v.
  induction l as [|c l IH]; intros v; simpl fold_left.
  - simpl. lia.
  - rewrite IH, (IH (10 * 0 + _)).
    cbn [length]. rewrite Nat2N.inj_succ, N.pow_succ_r'. lia.
Qed.

Lemma digits_value_cons (c : ascii) (l : list ascii) :
  digits_value (c :: l)
    = (N_of_ascii c - 48) * 10 ^ N.of_nat (length l) + digits_value l.
Proof.
  unfold digits_value at 1. simpl fold_left. rewrite digits_value_app. lia.
Qed.

(** With fuel for every digit, [digits] writes [n] in front of [acc]. *)
Lemma digits_denote (fuel : nat) (n : N) (acc : list ascii) :
  n < 10 ^ N.of_nat fuel ->
  digits_value (digits fuel n acc)
    = n * 10 ^ N.of_nat (length acc) + digits_value acc.
Proof.
  revert n acc. induction fuel as [|fuel IH]; intros n acc Hn.
  - simpl in *. assert (n = 0) by lia. subst. lia.
  - rewrite Nat2N.inj_succ, N.pow_succ_r' in Hn. cbn [digits].
    assert (Hd : n mod 10 < 10) by euclid.
    destruct (N.eqb_spec (n / 10) 0) as [Hq | Hq].
    + rewrite digits_value_cons, digit_char_value by assumption.
      assert (E : n mod 10 = n) by euclid. rewrite E. reflexivity.
    + rewrite IH by euclid.
      rewrite digits_value_cons, digit_char_value by assumption.
      cbn [length]. rewrite Nat2N.inj_succ, N.pow_succ_r'.
      rewrite (N.div_mod n 10) at 3 by lia. lia.
Qed.

Lemma digits_length (fuel k : nat) (n : N) (acc : list ascii) :
  (1 <= k)%nat ->
  n < 10 ^ N.of_nat k ->
  (length (digits fuel n acc) <= k + length acc)%nat.
Proof.
  revert k n acc. induction fuel as [|fuel IH]; intros k n acc Hk Hn.
  - simpl. lia.
  - cbn [digits].
    destruct (N.eqb_spec (n / 10) 0) as [Hq | Hq]; [cbn [length]; lia|].
    destruct k as [|[|k]]; [lia | simpl in Hn; exfalso; euclid |].
    rewrite Nat2N.inj_succ, N.pow_succ_r' in Hn.
    specialize (IH (S k) (n / 10) (digit_char (n mod 10) :: acc)).
    cbn [length] in IH.
    assert (n / 10 < 10 ^ N.of_nat (S k)) by euclid.
    lia.
Qed.

Lemma digits_all_digits (fuel : nat) (n : N) (acc : list ascii) :
  forallb is_digit acc = true ->
  forallb is_digit (digits fuel n acc) = true.
Proof.
  revert n acc. induction fuel as [|fuel IH]; intros n acc Hacc; [exact Hacc|].
  cbn [digits].
  assert (Hd : forallb is_digit (digit_char (n mod 10) :: acc) = true).
  { cbn [forallb]. rewrite Hacc, digit_char_is_digit by euclid. reflexivity. }
  destruct (n / 10 =? 0); [exact Hd | now apply IH].
Qed.

End Decimal.

Section Timestamp.

Import CredentialBuilder.
Local Open Scope N_scope.

Lemma toString_fuel (n : N) : n < 10 ^ N.of_nat (S (N.to_nat (N.log2 n))).
Proof.
  rewrite Nat2N.inj_succ, N2Nat.id.
  apply N.lt_le_trans with (2 ^ N.succ (N.log2 n)).
  - destruct (N.eq_dec n 0) as [-> | Hn]; [reflexivity|].
    apply N.log2_spec. lia.
  - apply N.pow_le_mono_l. lia.
Qed.

Lemma digits_value_zeros (k : nat) (l : list ascii) :
  digits_value (repeat "0"%char k ++ l) = digits_value l.
Proof.
  induction k as [|k IH]; [reflexivity|].
  cbn [repeat app]. rewrite digits_value_cons, IH. reflexivity.
Qed.

Lemma pad_value (w : nat) (n : N) : digits_value (pad w n) = n.
Proof.
  unfold pad, padStart, Number_toString.
  rewrite digits_value_zeros, digits_denote by apply toString_fuel.
  cbn. lia.
Qed.

Lemma pad_length (w : nat) (n : N) :
  (1 <= w)%nat -> n < 10 ^ N.of_nat w -> length (pad w n) = w.
Proof.
  intros Hw Hn. unfold pad, padStart, Number_toString.
  rewrite length_app, repeat_length.
  pose proof (digits_length (S (N.to_nat (N.log2 n))) w n [] Hw Hn) as H.
  cbn [length] in H. lia.
Qed.

Lemma pad_all_digits (w : nat) (n : N) : forallb is_digit (pad w n) = true.
Proof.
  unfold pad, padStart, Number_toString. rewrite forallb_app.
  apply andb_true_iff. split.
  - induction (w - _)%nat; [reflexivity | assumption].
  - now apply digits_all_digits.
Qed.

Lemma columns (y mo d h mi s : list ascii) :
  length y = 4%nat -> length mo = 2%nat -> length d = 2%nat ->
  length h = 2%nat -> length mi = 2%nat -> length s = 2%nat ->
  let cs := (y ++ mo ++ d ++ h ++ mi ++ s)%list in
  length cs = 14%nat /\
  take 4 (drop 0 cs) = y /\ take 2 (drop 4 cs) = mo /\
  take 2 (drop 6 cs) = d /\ take 2 (drop 8 cs) = h /\
  take 2 (drop 10 cs) = mi /\ take 2 (drop 12 cs) = s.
Proof.
  intros Hy Hmo Hd Hh Hmi Hs.
  destruct y as [|? [|? [|? [|? [|]]]]]; try discriminate.
  destruct mo as [|? [|? [|]]]; try discriminate.
  destruct d as [|? [|? [|]]]; try discriminate.
  destruct h as [|? [|? [|]]]; try discriminate.
  destruct mi as [|? [|? [|]]]; try discriminate.
  destruct s as [|? [|? [|]]]; try discriminate.
  repeat split.
Qed.

Lemma valid_clock_bounds (c : clock_reading) :
  valid_clock c = true ->
  year c < 10 ^ 4 /\ month c < 10 ^ 2 /\ day c < 10 ^ 2 /\
  hour c < 10 ^ 2 /\ minute c < 10 ^ 2 /\ second c < 10 ^ 2.
Proof.
  unfold valid_clock. rewrite !andb_true_iff, !N.leb_le.
  intros [[[[[[[Hy _] Hmo] _] Hd] Hh] Hmi] Hs].
  assert (days_in_month (year c) (month c) <= 31).
  { unfold days_in_month.
    repeat match goal with |- context [if ?b then _ else _] => destruct b end;
      lia. }
  change (10 ^ 4) with 10000. change (10 ^ 2) with 100. lia.
Qed.

Lemma string_length_of_list (l : list ascii) :
  String.length (string_of_list_ascii l) = length l.
Proof. induction l as [|c l IH]; simpl; congruence. Qed.

Lemma list_ascii_of_append (s1 s2 : string) :
  list_ascii_of_string (s1 ++ s2)
    = (list_ascii_of_string s1 ++ list_ascii_of_string s2)%list.
Proof.
  induction s1 as [|c s1 IH]; [reflexivity|].
  change (list_ascii_of_string (String c (s1 ++ s2))
            = c :: (list_ascii_of_string s1 ++ list_ascii_of_string s2)%list).
  cbn [list_ascii_of_string]. now rewrite IH.
Qed.

Lemma Buffer_from_append (s1 s2 : string) :
  Buffer_from (s1 ++ s2) = (Buffer_from s1 ++ Buffer_from s2)%list.
Proof. unfold Buffer_from. now rewrite list_ascii_of_append, map_app. Qed.

Lemma Buffer_from_bytes (s : string) : Forall (fun b => b < 256) (Buffer_from s).
Proof.
  unfold Buffer_from. apply Forall_forall. intros b Hb.
  apply list_elem_of_In, in_map_iff in Hb as (c & <- & _).
  apply N_ascii_bounded.
Qed.

Lemma format_timestamp_columns (c : clock_reading) :
  valid_clock c = true ->
  length (format_timestamp c) = 14%nat /\
  forallb is_digit (format_timestamp c) = true /\
  parse_timestamp (string_of_list_ascii (format_timestamp c)) = c.
Proof.
  intros Hc. apply valid_clock_bounds in Hc as (Hy & Hmo & Hd & Hh & Hmi & Hs).
  pose proof (columns (pad 4 (year c)) (pad 2 (month c)) (pad 2 (day c))
                (pad 2 (hour c)) (pad 2 (minute c)) (pad 2 (second c))) as H.
  cbv zeta in H. rewrite !pad_length in H by (assumption || lia).
  destruct H as (Hlen & E0 & E1 & E2 & E3 & E4 & E5); try reflexivity.
  split; [exact Hlen|]. split.
  - unfold format_timestamp. rewrite !forallb_app, !pad_all_digits. reflexivity.
  - unfold parse_timestamp, field.
    rewrite list_ascii_of_string_of_list_ascii.
    unfold format_timestamp. rewrite E0, E1, E2, E3, E4, E5, !pad_value.
    destruct c; reflexivity.
Qed.

End Timestamp.

(** An empty short code or passkey is refused. *)
Lemma build_rejects_empty (passkey : string) (now : CredentialBuilder.clock_reading) :
  CredentialBuilder.build "" passkey now = inr CredentialBuilder.ConfigurationError /\
  CredentialBuilder.build passkey "" now = inr CredentialBuilder.ConfigurationError.
Proof.
  unfold CredentialBuilder.build. split; [reflexivity|].
  now rewrite orb_true_r.
Qed.

(** C6: for a non-empty short code and passkey and a valid clock reading,
    [build] succeeds; its timestamp is 14 decimal digits whose columns
    [YYYYMMDDHHmmss] read back as the clock reading, and its password
    decodes from base64 to the bytes of the short code, then those of the
    passkey, then those of the timestamp, with nothing in between. *)
Theorem build_credentials
    (shortCode passkey : string) (now : CredentialBuilder.clock_reading) :
  shortCode <> "" ->
  passkey <> "" ->
  CredentialBuilder.valid_clock now = true ->
  exists cred,
    CredentialBuilder.build shortCode passkey now = inl cred /\
    String.length (CredentialBuilder.timestamp cred) = 14 /\
    forallb CredentialBuilder.is_digit
      (list_ascii_of_string (CredentialBuilder.timestamp cred)) = true /\
    CredentialBuilder.parse_timestamp (CredentialBuilder.timestamp cred) = now /\
    CredentialBuilder.decode_base64 (CredentialBuilder.derivedPassword cred)
      = Some (CredentialBuilder.Buffer_from shortCode
              ++ CredentialBuilder.Buffer_from passkey
              ++ CredentialBuilder.Buffer_from
                   (CredentialBuilder.timestamp cred))%list.
Proof.
  intros Hsc Hpk Hnow. unfold CredentialBuilder.build.
  apply String.eqb_neq in Hsc, Hpk. rewrite Hsc, Hpk. cbn [orb].
  eexists. split; [reflexivity|].
  cbn [CredentialBuilder.timestamp CredentialBuilder.derivedPassword].
  destruct (format_timestamp_columns now Hnow) as (Hlen & Hdig & Hparse).
  rewrite string_length_of_list, list_ascii_of_string_of_list_ascii.
  repeat split; try assumption.
  unfold CredentialBuilder.decode_base64, CredentialBuilder.toString_base64.
  rewrite list_ascii_of_string_of_list_ascii, !Buffer_from_append.
  apply base64_roundtrip. rewrite <- !Buffer_from_append.
  apply Buffer_from_bytes.
Qed.

Lemma build_credentials_example :
  exists cred,
    CredentialBuilder.build "174379"
      "bfb279f9aa9bdbcf158e97dd71a467cd2e0c893059b10f78e6b72ada1ed2c919"
      test_clock = inl cred /\
    String.length (CredentialBuilder.timestamp cred) = 14 /\
    forallb CredentialBuilder.is_digit
      (list_ascii_of_string (CredentialBuilder.timestamp cred)) = true /\
    CredentialBuilder.parse_timestamp (CredentialBuilder.timestamp cred)
      = test_clock /\
    CredentialBuilder.decode_base64 (CredentialBuilder.derivedPassword cred)
      = Some (CredentialBuilder.Buffer_from "174379"
              ++ CredentialBuilder.Buffer_from
                   "bfb279f9aa9bdbcf158e97dd71a467cd2e0c893059b10f78e6b72ada1ed2c919"
              ++ CredentialBuilder.Buffer_from
                   (CredentialBuilder.timestamp cred))%list.
Proof.
  apply (build_credentials "174379"
           "bfb279f9aa9bdbcf158e97dd71a467cd2e0c893059b10f78e6b72ada1ed2c919"
           test_clock).
  - discriminate.
  - discriminate.
  - vm_compute. reflexivity.
Defined.

(** * Further properties of the route handler *)

Section Sequence.

Variable G : module_scope.

(** The handler only appends to what the world already holds. *)
Lemma lipaController_appends (req : request) (w : world) :
  lipaController G req w =
    (tt, {| now := now w; provider := provider w;
            sent := sent w ++
                    (if passes_check req then [] else [validation_failure]);
            pending := pending w ++
                    (if passes_check req
                     then [{| started := stk_call G; awaited := false |}]
                     else []) |}).
Proof.
  unfold lipaController, passes_check.
  destruct (ToBoolean (prop (body req) "phoneNumber"));
    destruct (ToBoolean (prop (body req) "amount")); cbn;
    unfold res_json, axios_post, stk_call; cbn; rewrite ?app_nil_r;
    try reflexivity; destruct w; reflexivity.
Qed.

Lemma serve_all_appends (reqs : list request) (w : world) :
  let n := length (List.filter passes_check reqs) in
  serve_all G reqs w =
    (tt, {| now := now w; provider := provider w;
            sent := sent w ++ repeat validation_failure (length reqs - n);
            pending := pending w ++
                       repeat {| started := stk_call G; awaited := false |} n
         |}).
Proof.
  revert w. induction reqs as [|req rest IH]; intros w.
  - cbn. rewrite !app_nil_r. destruct w; reflexivity.
  - cbn [serve_all]. unfold mbind, Handler_bind.
    rewrite lipaController_appends, IH. cbn [now provider sent pending].
    pose proof (List.filter_length_le passes_check rest) as Hle.
    cbn [List.filter length]. destruct (passes_check req); cbn [length].
    + rewrite app_nil_r, <- app_assoc. do 3 f_equal.
    + rewrite app_nil_r, <- app_assoc.
      replace (S (length rest) - length (List.filter passes_check rest))
        with (S (length rest - length (List.filter passes_check rest)))
        by lia.
      reflexivity.
Qed.

End Sequence.



(** X3: the request reaches the outcome only through the presence check:
    two requests on which the check agrees leave the same world behind,
    whatever else their bodies hold. *)
Theorem request_read_through_check_only
    (G : module_scope) (N : axios_call -> settlement) (t : Z)
    (req1 req2 : request) :
  passes_check req1 = passes_check req2 ->
  serve G N t req1 = serve G N t req2.
Proof.
  intros H. destruct (passes_check req1) eqn:H1; symmetry in H.
  - now rewrite !serve_forwarded.
  - now rewrite !serve_refused.
Qed.

Lemma request_read_through_check_only_example :
  serve test_scope accepting 0 test_order
    = serve test_scope accepting 0 negative_amount_order.
Proof.
  apply (request_read_through_check_only test_scope accepting 0
           test_order negative_amount_order).
  vm_compute. reflexivity.
Defined.

(** X4: with [MPESA_SANDBOX_URL] and [MPESA_BUSINESS_SHORT_CODE] unset, a
    request that passes the check is still forwarded: the call goes to the
    URL [undefined] with [undefined] as payee. *)
Theorem unset_environment_forwarded
    (G : module_scope) (N : axios_call -> settlement) (t : Z) (req : request) :
  process_env G !! "MPESA_SANDBOX_URL" = None ->
  process_env G !! "MPESA_BUSINESS_SHORT_CODE" = None ->
  passes_check req = true ->
  map (fun c => (call_url c, PartyB (call_data c)))
      (outbound (serve G N t req))
    = [(JUndefined, JUndefined)].
Proof.
  intros Hurl Hcode H. rewrite serve_forwarded by assumption.
  cbn. unfold mpesa_safaricom_url, env. now rewrite Hurl, Hcode.
Qed.

Lemma unset_environment_forwarded_example :
  map (fun c => (call_url c, PartyB (call_data c)))
      (outbound (serve unconfigured_scope accepting 0 test_order))
    = [(JUndefined, JUndefined)].
Proof.
  apply (unset_environment_forwarded unconfigured_scope accepting 0 test_order);
    vm_compute; reflexivity.
Defined.

(** X5: the check does not look at types: with a phone number that passes,
    an amount that is any non-empty string, an array or an object is
    forwarded like a number. *)
Theorem non_numeric_amount_forwarded
    (G : module_scope) (N : axios_call -> settlement) (t : Z) (req : request) :
  ToBoolean (prop (body req) "phoneNumber") = true ->
  match prop (body req) "amount" with
  | JStr s => s <> ""
  | JArr _ | JObj _ => True
  | _ => False
  end ->
  caller_receives (serve G N t req) = None /\
  outbound (serve G N t req) = [stk_call G].
Proof.
  intros Hp Ha. rewrite serve_forwarded; [split; reflexivity|].
  unfold passes_check. rewrite Hp. cbn.
  destruct (prop (body req) "amount"); try contradiction; try reflexivity.
  cbn. apply String.eqb_neq in Ha. now rewrite Ha.
Qed.

Lemma non_numeric_amount_forwarded_text :
  caller_receives (serve test_scope accepting 0 text_amount_order) = None /\
  outbound (serve test_scope accepting 0 text_amount_order)
    = [stk_call test_scope].
Proof.
  apply (non_numeric_amount_forwarded test_scope accepting 0 text_amount_order).
  - vm_compute. reflexivity.
  - vm_compute. discriminate.
Defined.

(** * Properties of the password recipe *)

Section Password.

Import CredentialBuilder.
Local Open Scope N_scope.

Ltac euclid := zify; Z.to_euclidean_division_equations; lia.

Lemma Buffer_from_inj (s1 s2 : string) :
  Buffer_from s1 = Buffer_from s2 -> s1 = s2.
Proof.
  unfold Buffer_from. intros H.
  rewrite <- (string_of_list_ascii_of_string s1),
          <- (string_of_list_ascii_of_string s2).
  f_equal. revert H.
  generalize (list_ascii_of_string s1) (list_ascii_of_string s2).
  induction l as [|a l IH]; intros [|b l']; cbn; try discriminate; auto.
  intros H. injection H as Hab Hl.
  f_equal; [|now apply IH].
  rewrite <- (ascii_N_embedding a), <- (ascii_N_embedding b). now f_equal.
Qed.

Lemma base64_encode_length (bs : list N) :
  N.of_nat (length (base64_encode bs)) = 4 * ((N.of_nat (length bs) + 2) / 3).
Proof.
  induction bs as [|a|a b|a b c rest IH] using list_ind3;
    try reflexivity.
  cbn [base64_encode length]. rewrite !Nat2N.inj_succ, IH. euclid.
Qed.

Lemma sextet_char_base64 (i : N) : i < 64 -> base64_char (sextet_char i) = true.
Proof.
  intros Hi. unfold base64_char.
  now destruct (sextet_inv i Hi) as [-> _].
Qed.

Lemma base64_encode_chars (bs : list N) :
  Forall (fun b => b < 256) bs ->
  forallb base64_char (base64_encode bs) = true.
Proof.
  induction bs as [|a|a b|a b c rest IH] using list_ind3; intros Hb.
  - reflexivity.
  - apply Forall_cons_1 in Hb as [Ha _].
    cbn [base64_encode forallb].
    rewrite !sextet_char_base64 by euclid. reflexivity.
  - apply Forall_cons_1 in Hb as [Ha Hb].
    apply Forall_cons_1 in Hb as [Hb _].
    cbn [base64_encode forallb].
    rewrite !sextet_char_base64 by euclid. reflexivity.
  - apply Forall_cons_1 in Hb as [Ha Hb].
    apply Forall_cons_1 in Hb as [Hb Hc].
    apply Forall_cons_1 in Hc as [Hc Hrest].
    cbn [base64_encode forallb].
    rewrite !sextet_char_base64 by euclid. now rewrite IH.
Qed.

Lemma string_length_list (s : string) :
  length (list_ascii_of_string s) = String.length s.
Proof. induction s as [|c s IH]; cbn; congruence. Qed.

Lemma encoded_string_decodes (s : string) :
  decode_base64 (toString_base64 (Buffer_from s)) = Some (Buffer_from s).
Proof.
  unfold decode_base64, toString_base64.
  rewrite list_ascii_of_string_of_list_ascii.
  apply base64_roundtrip, Buffer_from_bytes.
Qed.

End Password.



(** X8: the password is base64 text: four characters for every three bytes
    of the concatenation, the last group rounded up, all of them letters of
    the base64 alphabet or the padding [=]. *)
Theorem generateMpesaPassword_shape (shortCode passkey timestamp : string) :
  N.of_nat (String.length (generateMpesaPassword shortCode passkey timestamp))
    = (4 * ((N.of_nat (String.length shortCode + String.length passkey
                       + String.length timestamp) + 2) / 3))%N /\
  forallb base64_char
    (list_ascii_of_string (generateMpesaPassword shortCode passkey timestamp))
    = true.
Proof.
  unfold generateMpesaPassword, CredentialBuilder.toString_base64.
  rewrite string_length_of_list, list_ascii_of_string_of_list_ascii. split.
  - rewrite base64_encode_length. do 3 f_equal.
    unfold CredentialBuilder.Buffer_from.
    rewrite length_map, !list_ascii_of_append, !length_app,
      !string_length_list. lia.
  - apply base64_encode_chars, Buffer_from_bytes.
Qed.

(** * Properties of the timestamp recipe *)

Section DateTimeFacts.

Import DateTime.
Local Open Scope Z_scope.

Ltac floors := Z.to_euclidean_division_equations; lia.

Lemma YearFromTime_le (t : Z) : TimeFromYear (YearFromTime t) <= t.
Proof.
  unfold YearFromTime. cbv zeta.
  destruct (Z.leb_spec (TimeFromYear (1970 + (400 * Day t + 506) / 146097)) t)
    as [H | _]; [exact H|].
  unfold TimeFromYear, DayFromYear, Day, msPerDay. floors.
Qed.

Lemma YearFromTime_lt (t : Z) : t < TimeFromYear (YearFromTime t + 1).
Proof.
  unfold YearFromTime. cbv zeta.
  destruct (Z.leb_spec (TimeFromYear (1970 + (400 * Day t + 506) / 146097)) t)
    as [_ | H]; unfold TimeFromYear, DayFromYear, Day, msPerDay in *; floors.
Qed.

Lemma DayFromYear_succ (y : Z) :
  DayFromYear (y + 1) = DayFromYear y + DaysInYear y.
Proof.
  unfold DayFromYear, DaysInYear.
  destruct (Z.eqb_spec (y mod 4) 0), (Z.eqb_spec (y mod 100) 0),
    (Z.eqb_spec (y mod 400) 0); cbn [negb]; floors.
Qed.

Lemma DayFromYear_mono (y y' : Z) : y <= y' -> DayFromYear y <= DayFromYear y'.
Proof. unfold DayFromYear. intros H. floors. Qed.

Lemma TimeFromYear_mono (y y' : Z) :
  y <= y' -> TimeFromYear y <= TimeFromYear y'.
Proof.
  intros H. apply DayFromYear_mono in H. unfold TimeFromYear, msPerDay. lia.
Qed.

(** [YearFromTime t] is the largest year that starts at or before [t]. *)
Lemma YearFromTime_largest (t y : Z) :
  TimeFromYear y <= t <-> y <= YearFromTime t.
Proof.
  split; intros H.
  - destruct (Z.le_gt_cases y (YearFromTime t)) as [|Hgt]; [assumption|].
    pose proof (YearFromTime_lt t).
    pose proof (TimeFromYear_mono (YearFromTime t + 1) y). lia.
  - pose proof (YearFromTime_le t).
    pose proof (TimeFromYear_mono y (YearFromTime t) H). lia.
Qed.

Lemma DayWithinYear_range (t : Z) :
  0 <= DayWithinYear t < DaysInYear (YearFromTime t).
Proof.
  pose proof (YearFromTime_le t) as Hle.
  pose proof (YearFromTime_lt t) as Hlt.
  pose proof (DayFromYear_succ (YearFromTime t)) as Hs.
  unfold DayWithinYear, TimeFromYear, Day, msPerDay in *.
  floors.
Qed.

Lemma InLeapYear_cases (t : Z) :
  InLeapYear t = 0 /\ DaysInYear (YearFromTime t) = 365 \/
  InLeapYear t = 1 /\ DaysInYear (YearFromTime t) = 366.
Proof.
  unfold InLeapYear.
  destruct (Z.eqb_spec (DaysInYear (YearFromTime t)) 366) as [->|H]; auto.
  left. split; [reflexivity|]. revert H. unfold DaysInYear.
  repeat match goal with |- context [if ?b then _ else _] => destruct b end;
    lia.
Qed.

Lemma MonthFromTime_range (t : Z) : 0 <= MonthFromTime t <= 11.
Proof.
  unfold MonthFromTime. cbv zeta.
  repeat match goal with |- context [if ?b then _ else _] => destruct b end;
    lia.
Qed.

(** The day of the year is the start of the month plus the day of the
    month. *)
Lemma DayWithinYear_split (t : Z) :
  DayWithinYear t
    = month_start (InLeapYear t) (MonthFromTime t) + DateFromTime t - 1.
Proof.
  unfold DateFromTime, month_start. cbv zeta.
  repeat match goal with |- context [if ?b then _ else _] => destruct b end;
    lia.
Qed.

Lemma DateFromTime_range (t : Z) :
  1 <= DateFromTime t <= month_days (InLeapYear t) (MonthFromTime t).
Proof.
  pose proof (DayWithinYear_range t) as Hd.
  pose proof (InLeapYear_cases t) as HL.
  unfold DateFromTime, month_days, month_start, MonthFromTime. cbv zeta.
  repeat match goal with
         | |- context [if ?a <? ?b then _ else _] =>
             destruct (Z.ltb_spec a b)
         end;
    repeat match goal with
           | |- context [if ?c then _ else _] =>
               let v := eval vm_compute in c in change c with v; cbv iota
           end;
    lia.
Qed.

Lemma time_of_day_range (t : Z) :
  0 <= HourFromTime t <= 23 /\ 0 <= MinFromTime t <= 59 /\
  0 <= SecFromTime t <= 59.
Proof. unfold HourFromTime, MinFromTime, SecFromTime. floors. Qed.

(** The second a time value falls in, from its calendar fields. *)
Lemma second_of_fields (t : Z) :
  t / msPerSecond
    = 86400 * (DayFromYear (YearFromTime t)
               + month_start (InLeapYear t) (MonthFromTime t)
               + DateFromTime t - 1)
      + 3600 * HourFromTime t + 60 * MinFromTime t + SecFromTime t.
Proof.
  pose proof (DayWithinYear_split t) as H. unfold DayWithinYear in H.
  replace (DayFromYear (YearFromTime t)
           + month_start (InLeapYear t) (MonthFromTime t)
           + DateFromTime t - 1) with (Day t) by lia.
  unfold Day, HourFromTime, MinFromTime, SecFromTime,
    msPerDay, msPerHour, msPerMinute, msPerSecond.
  floors.
Qed.

End DateTimeFacts.

Section RecipeFacts.

Import DateTime CredentialBuilder.
Local Open Scope Z_scope.

Ltac floors := Z.to_euclidean_division_equations; lia.

Lemma leb_TimeFromYear (y t : Z) :
  (TimeFromYear y <=? t) = (DayFromYear y <=? Day t).
Proof.
  unfold TimeFromYear, Day, msPerDay.
  destruct (Z.leb_spec (86400000 * DayFromYear y) t),
    (Z.leb_spec (DayFromYear y) (t / 86400000)); try reflexivity; floors.
Qed.

Lemma Day_same_second (t t' : Z) :
  t / msPerSecond = t' / msPerSecond -> Day t = Day t'.
Proof. unfold Day, msPerDay, msPerSecond. intros H. floors. Qed.

Lemma YearFromTime_same_second (t t' : Z) :
  t / msPerSecond = t' / msPerSecond -> YearFromTime t = YearFromTime t'.
Proof.
  intros H. unfold YearFromTime.
  now rewrite !leb_TimeFromYear, (Day_same_second t t' H).
Qed.

Lemma calendar_same_second (t t' : Z) :
  t / msPerSecond = t' / msPerSecond ->
  MonthFromTime t = MonthFromTime t' /\ DateFromTime t = DateFromTime t' /\
  HourFromTime t = HourFromTime t' /\ MinFromTime t = MinFromTime t' /\
  SecFromTime t = SecFromTime t'.
Proof.
  intros H.
  assert (HM : MonthFromTime t = MonthFromTime t').
  { unfold MonthFromTime, DayWithinYear, InLeapYear.
    now rewrite (Day_same_second t t' H), (YearFromTime_same_second t t' H). }
  split; [exact HM|]. split.
  - unfold DateFromTime. rewrite HM. unfold DayWithinYear, InLeapYear.
    now rewrite (Day_same_second t t' H), (YearFromTime_same_second t t' H).
  - unfold HourFromTime, MinFromTime, SecFromTime,
      msPerHour, msPerMinute, msPerSecond in *.
    repeat split; floors.
Qed.

Lemma leap_year_DaysInYear (y : Z) :
  0 <= y -> leap_year (Z.to_N y) = (DaysInYear y =? 366).
Proof.
  intros Hy. unfold leap_year, DaysInYear.
  assert (E : forall k, (0 < k)%Z ->
                (Z.to_N y mod Z.to_N k =? 0)%N = (y mod k =? 0)).
  { intros k Hk.
    destruct (N.eqb_spec (Z.to_N y mod Z.to_N k) 0),
      (Z.eqb_spec (y mod k) 0); try reflexivity; exfalso.
    - apply n. rewrite <- (Z2N.id y), <- (Z2N.id k), <- N2Z.inj_mod by lia.
      lia.
    - apply n. rewrite <- (Z2N.id y), <- (Z2N.id k), <- N2Z.inj_mod in e by lia.
      lia. }
  change 4%N with (Z.to_N 4). change 100%N with (Z.to_N 100).
  change 400%N with (Z.to_N 400). rewrite !E by lia.
  destruct (Z.eqb_spec (y mod 4) 0), (Z.eqb_spec (y mod 100) 0),
    (Z.eqb_spec (y mod 400) 0); try reflexivity; exfalso; floors.
Qed.

Lemma days_in_month_month_days (t : Z) :
  0 <= YearFromTime t ->
  days_in_month (Z.to_N (YearFromTime t)) (Z.to_N (MonthFromTime t + 1))
    = Z.to_N (month_days (InLeapYear t) (MonthFromTime t)).
Proof.
  intros Hy. pose proof (MonthFromTime_range t) as Hm.
  unfold days_in_month. rewrite leap_year_DaysInYear by assumption.
  unfold InLeapYear.
  assert (Hc : MonthFromTime t = 0 \/ MonthFromTime t = 1 \/
               MonthFromTime t = 2 \/ MonthFromTime t = 3 \/
               MonthFromTime t = 4 \/ MonthFromTime t = 5 \/
               MonthFromTime t = 6 \/ MonthFromTime t = 7 \/
               MonthFromTime t = 8 \/ MonthFromTime t = 9 \/
               MonthFromTime t = 10 \/ MonthFromTime t = 11) by lia.
  destruct (DaysInYear (YearFromTime t) =? 366);
    repeat (destruct Hc as [-> | Hc]; [reflexivity|]); now rewrite Hc.
Qed.

Lemma calendar_valid (t : Z) :
  0 <= YearFromTime t <= 9999 ->
  valid_clock
    {| year := Z.to_N (YearFromTime t);
       month := Z.to_N (MonthFromTime t + 1);
       day := Z.to_N (DateFromTime t);
       hour := Z.to_N (HourFromTime t);
       minute := Z.to_N (MinFromTime t);
       second := Z.to_N (SecFromTime t) |} = true.
Proof.
  intros Hy. unfold valid_clock. cbn [year month day hour minute second].
  rewrite days_in_month_month_days by lia.
  pose proof (MonthFromTime_range t). pose proof (DateFromTime_range t).
  pose proof (time_of_day_range t).
  rewrite !andb_true_iff, !N.leb_le. repeat split; lia.
Qed.

End RecipeFacts.

Section YearDigits.

Import CredentialBuilder.
Local Open Scope N_scope.

Ltac euclid := zify; Z.to_euclidean_division_equations; lia.

Lemma pow10_pos (k : nat) : 0 < 10 ^ N.of_nat k.
Proof. pose proof (N.pow_nonzero 10 (N.of_nat k)). lia. Qed.

Lemma digits_length_acc (fuel : nat) (n : N) (acc : list ascii) :
  (length acc <= length (digits fuel n acc))%nat.
Proof.
  revert n acc. induction fuel as [|fuel IH]; intros n acc; [reflexivity|].
  cbn [digits]. destruct (n / 10 =? 0); [cbn [length]; lia|].
  specialize (IH (n / 10) (digit_char (n mod 10) :: acc)).
  cbn [length] in IH. lia.
Qed.

(** A number of at least [10 ^ k] is written with more than [k] digits. *)
Lemma digits_length_lb (fuel k : nat) (n : N) (acc : list ascii) :
  n < 10 ^ N.of_nat fuel ->
  10 ^ N.of_nat k <= n ->
  (k + 1 + length acc <= length (digits fuel n acc))%nat.
Proof.
  revert k n acc. induction fuel as [|fuel IH]; intros k n acc Hf Hk.
  - exfalso. pose proof (pow10_pos k).
    cbn in Hf. lia.
  - rewrite Nat2N.inj_succ, N.pow_succ_r' in Hf. cbn [digits].
    destruct k as [|k].
    + destruct (n / 10 =? 0); [cbn [length]; lia|].
      pose proof (digits_length_acc fuel (n / 10)
                    (digit_char (n mod 10) :: acc)) as H.
      cbn [length] in H. lia.
    + rewrite Nat2N.inj_succ, N.pow_succ_r' in Hk.
      pose proof (pow10_pos k).
      destruct (N.eqb_spec (n / 10) 0) as [Hq | Hq]; [exfalso; euclid|].
      specialize (IH k (n / 10) (digit_char (n mod 10) :: acc)).
      cbn [length] in IH.
      assert (n / 10 < 10 ^ N.of_nat fuel) by euclid.
      assert (10 ^ N.of_nat k <= n / 10) by euclid.
      lia.
Qed.

Lemma toString_length_bounds (k : nat) (n : N) :
  (10 ^ N.of_nat k <= n -> (k + 1 <= length (Number_toString n))%nat) /\
  ((1 <= k)%nat -> n < 10 ^ N.of_nat k ->
   (length (Number_toString n) <= k)%nat).
Proof.
  unfold Number_toString. split.
  - intros H.
    pose proof (digits_length_lb _ k n [] (toString_fuel n) H) as Hl.
    cbn [length] in Hl. lia.
  - intros Hk H.
    pose proof (digits_length (S (N.to_nat (N.log2 n))) k n [] Hk H) as Hl.
    cbn [length] in Hl. lia.
Qed.

Lemma four_digit_year (n : N) :
  1000 <= n <= 9999 -> Number_toString n = pad 4 n.
Proof.
  intros [Hlo Hhi]. unfold pad, padStart.
  destruct (toString_length_bounds 3 n) as [H3 _].
  destruct (toString_length_bounds 4 n) as [_ H4].
  specialize (H3 Hlo).
  assert (Hlt : n < 10 ^ N.of_nat 4) by (change (10 ^ N.of_nat 4) with 10000; lia).
  specialize (H4 (le_S _ _ (le_S _ _ (le_S _ _ (le_n 1)))) Hlt).
  replace (4 - length (Number_toString n))%nat with 0%nat by lia.
  reflexivity.
Qed.

End YearDigits.

Section Recipe.

Import DateTime CredentialBuilder.
Local Open Scope Z_scope.

Lemma TimeClip_valid (v : Z) :
  Z.abs v <= 8640000000000000 -> TimeClip v = Some v.
Proof.
  intros H. unfold TimeClip.
  destruct (Z.gtb_spec (Z.abs v) 8640000000000000); [lia | reflexivity].
Qed.

Lemma toString_nonneg (z : Z) :
  0 <= z ->
  TimestampRecipe.Number_toString (Some z) = Number_toString (Z.to_N z).
Proof.
  intros H. unfold TimestampRecipe.Number_toString.
  destruct (Z.ltb_spec z 0); [lia | reflexivity].
Qed.

Lemma pad_nonneg (z : Z) :
  0 <= z -> TimestampRecipe.pad (Some z) = pad 2 (Z.to_N z).
Proof.
  intros H. unfold TimestampRecipe.pad, pad. now rewrite toString_nonneg.
Qed.

(** The characters of the timestamp of a valid date in a year from 0 on. *)
Lemma recipe_chars (now : Z) :
  Z.abs (now + 10800000) <= 8640000000000000 ->
  0 <= YearFromTime (now + 10800000) ->
  list_ascii_of_string (TimestampRecipe.getMpesaTimestamp now)
    = (Number_toString (year (TimestampRecipe.nairobi_clock now))
       ++ pad 2 (month (TimestampRecipe.nairobi_clock now))
       ++ pad 2 (day (TimestampRecipe.nairobi_clock now))
       ++ pad 2 (hour (TimestampRecipe.nairobi_clock now))
       ++ pad 2 (minute (TimestampRecipe.nairobi_clock now))
       ++ pad 2 (second (TimestampRecipe.nairobi_clock now)))%list.
Proof.
  intros Hv Hy. unfold TimestampRecipe.getMpesaTimestamp. cbv zeta.
  rewrite list_ascii_of_string_of_list_ascii.
  change (Some now ≫= _) with (TimeClip (now + 10800000)).
  rewrite TimeClip_valid by assumption.
  pose proof (MonthFromTime_range (now + 10800000)).
  pose proof (DateFromTime_range (now + 10800000)).
  pose proof (time_of_day_range (now + 10800000)).
  unfold TimestampRecipe.getUTCFullYear, TimestampRecipe.getUTCMonth,
    TimestampRecipe.getUTCDate, TimestampRecipe.getUTCHours,
    TimestampRecipe.getUTCMinutes, TimestampRecipe.getUTCSeconds,
    TimestampRecipe.getter.
  cbn [fmap option_fmap option_map].
  rewrite toString_nonneg, !pad_nonneg by lia.
  reflexivity.
Qed.

Lemma recipe_year_range (now : Z) :
  TimeFromYear 1000 <= now + 10800000 < TimeFromYear 10000 <->
  1000 <= YearFromTime (now + 10800000) <= 9999.
Proof.
  rewrite (YearFromTime_largest (now + 10800000) 1000).
  pose proof (YearFromTime_largest (now + 10800000) 10000). lia.
Qed.

Lemma recipe_range_valid (now : Z) :
  TimeFromYear 1000 <= now + 10800000 < TimeFromYear 10000 ->
  Z.abs (now + 10800000) <= 8640000000000000.
Proof.
  change (TimeFromYear 1000) with (-30610224000000).
  change (TimeFromYear 10000) with 253402300800000. lia.
Qed.

(** In years of four digits the recipe prints what [format_timestamp]
    prints for the same calendar fields. *)
Lemma recipe_format (now : Z) :
  TimeFromYear 1000 <= now + 10800000 < TimeFromYear 10000 ->
  valid_clock (TimestampRecipe.nairobi_clock now) = true /\
  TimestampRecipe.getMpesaTimestamp now
    = string_of_list_ascii (format_timestamp (TimestampRecipe.nairobi_clock now)).
Proof.
  intros H. pose proof (recipe_range_valid now H) as Hv.
  apply recipe_year_range in H. split.
  - apply (calendar_valid (now + 10800000)). lia.
  - rewrite <- (string_of_list_ascii_of_string
                  (TimestampRecipe.getMpesaTimestamp now)).
    rewrite recipe_chars by lia. unfold format_timestamp.
    rewrite four_digit_year; [reflexivity|].
    cbn [year TimestampRecipe.nairobi_clock].
    change (3 * 60 * 60 * 1000) with 10800000. lia.
Qed.

End Recipe.

Section RecipeSeconds.

Import DateTime CredentialBuilder.
Local Open Scope Z_scope.

Ltac floors := Z.to_euclidean_division_equations; lia.

Lemma nairobi_clock_same_second (now now' : Z) :
  now / 1000 = now' / 1000 ->
  TimestampRecipe.nairobi_clock now = TimestampRecipe.nairobi_clock now'.
Proof.
  intros H.
  assert (Hs : (now + 10800000) / msPerSecond
               = (now' + 10800000) / msPerSecond)
    by (unfold msPerSecond; floors).
  unfold TimestampRecipe.nairobi_clock. cbv zeta.
  change (3 * 60 * 60 * 1000) with 10800000.
  rewrite (YearFromTime_same_second _ _ Hs).
  destruct (calendar_same_second _ _ Hs) as (-> & -> & -> & -> & ->).
  reflexivity.
Qed.

Lemma nairobi_clock_second (now now' : Z) :
  0 <= YearFromTime (now + 10800000) ->
  0 <= YearFromTime (now' + 10800000) ->
  TimestampRecipe.nairobi_clock now = TimestampRecipe.nairobi_clock now' ->
  now / 1000 = now' / 1000.
Proof.
  intros Hy Hy' H. unfold TimestampRecipe.nairobi_clock in H. cbv zeta in H.
  change (3 * 60 * 60 * 1000) with 10800000 in H.
  injection H as EY EM ED Eh Em Es.
  pose proof (MonthFromTime_range (now + 10800000)).
  pose proof (MonthFromTime_range (now' + 10800000)).
  pose proof (DateFromTime_range (now + 10800000)).
  pose proof (DateFromTime_range (now' + 10800000)).
  pose proof (time_of_day_range (now + 10800000)).
  pose proof (time_of_day_range (now' + 10800000)).
  apply Z2N.inj in EY, EM, ED, Eh, Em, Es; try lia.
  assert (EM' : MonthFromTime (now + 10800000)
                = MonthFromTime (now' + 10800000)) by lia.
  pose proof (second_of_fields (now + 10800000)) as S1.
  pose proof (second_of_fields (now' + 10800000)) as S2.
  assert (EL : InLeapYear (now + 10800000) = InLeapYear (now' + 10800000))
    by (unfold InLeapYear; now rewrite EY).
  rewrite EY, EL, EM', ED, Eh, Em, Es in S1. rewrite <- S2 in S1.
  unfold msPerSecond in S1. floors.
Qed.

Lemma DateTime_fields_two_digits (now : Z) :
  length (pad 2 (month (TimestampRecipe.nairobi_clock now))) = 2%nat /\
  length (pad 2 (day (TimestampRecipe.nairobi_clock now))) = 2%nat /\
  length (pad 2 (hour (TimestampRecipe.nairobi_clock now))) = 2%nat /\
  length (pad 2 (minute (TimestampRecipe.nairobi_clock now))) = 2%nat /\
  length (pad 2 (second (TimestampRecipe.nairobi_clock now))) = 2%nat.
Proof.
  pose proof (MonthFromTime_range (now + 10800000)).
  pose proof (DateFromTime_range (now + 10800000)) as Hd.
  pose proof (time_of_day_range (now + 10800000)).
  assert (month_days (InLeapYear (now + 10800000))
            (MonthFromTime (now + 10800000)) <= 31).
  { pose proof (InLeapYear_cases (now + 10800000)).
    unfold month_days, month_start.
    repeat match goal with
           | |- context [if ?a =? ?b then _ else _] =>
               destruct (Z.eqb_spec a b)
           end; lia. }
  cbn [month day hour minute second TimestampRecipe.nairobi_clock].
  change (3 * 60 * 60 * 1000) with 10800000.
  repeat split; apply pad_length; try lia;
    change (10 ^ N.of_nat 2)%N with 100%N; lia.
Qed.

End RecipeSeconds.

(** X9: while Nairobi time (the clock plus three hours) lies in the years
    1000 to 9999, the recipe returns exactly 14 characters, all of them
    decimal digits. *)
Theorem getMpesaTimestamp_14_digits (now : Z) :
  (DateTime.TimeFromYear 1000 <= now + 10800000
     < DateTime.TimeFromYear 10000)%Z ->
  String.length (TimestampRecipe.getMpesaTimestamp now) = 14 /\
  forallb CredentialBuilder.is_digit
    (list_ascii_of_string (TimestampRecipe.getMpesaTimestamp now)) = true.
Proof.
  intros H. destruct (recipe_format now H) as [Hv ->].
  destruct (format_timestamp_columns _ Hv) as (Hlen & Hdig & _).
  now rewrite string_length_of_list, list_ascii_of_string_of_list_ascii.
Qed.

Lemma getMpesaTimestamp_14_digits_example :
  String.length (TimestampRecipe.getMpesaTimestamp 1763998527000) = 14 /\
  forallb CredentialBuilder.is_digit
    (list_ascii_of_string (TimestampRecipe.getMpesaTimestamp 1763998527000))
    = true.
Proof.
  apply (getMpesaTimestamp_14_digits 1763998527000).
  split; [vm_compute; discriminate | vm_compute; reflexivity].
Defined.

(** X10: in those years the columns [YYYYMMDDHHmmss] of the timestamp
    read back as a date and time that exists in the calendar: the year,
    month and day of the clock plus three hours, the UTC hour plus three
    modulo 24, and the UTC minute and second. *)
Theorem getMpesaTimestamp_reads_back (now : Z) :
  (DateTime.TimeFromYear 1000 <= now + 10800000
     < DateTime.TimeFromYear 10000)%Z ->
  CredentialBuilder.parse_timestamp (TimestampRecipe.getMpesaTimestamp now)
    = TimestampRecipe.nairobi_clock now /\
  CredentialBuilder.valid_clock (TimestampRecipe.nairobi_clock now) = true /\
  CredentialBuilder.hour (TimestampRecipe.nairobi_clock now)
    = Z.to_N ((DateTime.HourFromTime now + 3) mod 24) /\
  CredentialBuilder.minute (TimestampRecipe.nairobi_clock now)
    = Z.to_N (DateTime.MinFromTime now) /\
  CredentialBuilder.second (TimestampRecipe.nairobi_clock now)
    = Z.to_N (DateTime.SecFromTime now).
Proof.
  intros H. destruct (recipe_format now H) as [Hv ->].
  destruct (format_timestamp_columns _ Hv) as (_ & _ & Hparse).
  repeat split; try assumption; cbn; f_equal;
    unfold DateTime.HourFromTime, DateTime.MinFromTime, DateTime.SecFromTime,
      DateTime.msPerHour, DateTime.msPerMinute, DateTime.msPerSecond;
    Z.to_euclidean_division_equations; lia.
Qed.

(** X11: in those years two clock readings get the same timestamp exactly
    when they fall in the same second. *)
Theorem getMpesaTimestamp_one_per_second (now now' : Z) :
  (DateTime.TimeFromYear 1000 <= now + 10800000
     < DateTime.TimeFromYear 10000)%Z ->
  (DateTime.TimeFromYear 1000 <= now' + 10800000
     < DateTime.TimeFromYear 10000)%Z ->
  TimestampRecipe.getMpesaTimestamp now = TimestampRecipe.getMpesaTimestamp now'
  <-> (now / 1000 = now' / 1000)%Z.
Proof.
  intros H H'.
  destruct (recipe_format now H) as [Hv E], (recipe_format now' H') as [Hv' E'].
  split.
  - intros Heq.
    apply (f_equal CredentialBuilder.parse_timestamp) in Heq.
    rewrite E, E' in Heq.
    destruct (format_timestamp_columns _ Hv) as (_ & _ & P).
    destruct (format_timestamp_columns _ Hv') as (_ & _ & P').
    rewrite P, P' in Heq.
    apply recipe_year_range in H, H'.
    apply nairobi_clock_second; [lia | lia | exact Heq].
  - intros Hs. rewrite E, E'. now rewrite (nairobi_clock_same_second _ _ Hs).
Qed.

Lemma getMpesaTimestamp_reads_back_example :
  CredentialBuilder.parse_timestamp
    (TimestampRecipe.getMpesaTimestamp 1763998527000)
    = TimestampRecipe.nairobi_clock 1763998527000 /\
  CredentialBuilder.valid_clock (TimestampRecipe.nairobi_clock 1763998527000)
    = true /\
  CredentialBuilder.hour (TimestampRecipe.nairobi_clock 1763998527000)
    = Z.to_N ((DateTime.HourFromTime 1763998527000 + 3) mod 24) /\
  CredentialBuilder.minute (TimestampRecipe.nairobi_clock 1763998527000)
    = Z.to_N (DateTime.MinFromTime 1763998527000) /\
  CredentialBuilder.second (TimestampRecipe.nairobi_clock 1763998527000)
    = Z.to_N (DateTime.SecFromTime 1763998527000).
Proof.
  apply (getMpesaTimestamp_reads_back 1763998527000).
  split; [vm_compute; discriminate | vm_compute; reflexivity].
Defined.

Lemma getMpesaTimestamp_one_per_second_example :
  TimestampRecipe.getMpesaTimestamp 1763998527000
    = TimestampRecipe.getMpesaTimestamp 1763998527999
  <-> (1763998527000 / 1000 = 1763998527999 / 1000)%Z.
Proof.
  apply (getMpesaTimestamp_one_per_second 1763998527000 1763998527999);
    (split; [vm_compute; discriminate | vm_compute; reflexivity]).
Defined.

(** X12: the year is printed as it is, neither padded nor cut: from the
    year 0 on, the timestamp has 14 characters only while Nairobi time
    lies in the years 1000 to 9999. *)
Theorem getMpesaTimestamp_year_not_padded (now : Z) :
  (DateTime.TimeFromYear 0 <= now + 10800000 <= 8640000000000000)%Z ->
  String.length (TimestampRecipe.getMpesaTimestamp now) = 14 <->
  (DateTime.TimeFromYear 1000 <= now + 10800000
     < DateTime.TimeFromYear 10000)%Z.
Proof.
  intros [Hlo Hhi].
  assert (Hy : (0 <= DateTime.YearFromTime (now + 10800000))%Z)
    by now apply YearFromTime_largest.
  assert (Hv : (Z.abs (now + 10800000) <= 8640000000000000)%Z).
  { revert Hlo. change (DateTime.TimeFromYear 0) with (-62167219200000)%Z. lia. }
  rewrite recipe_year_range, <- string_length_list, recipe_chars by assumption.
  pose proof (DateTime_fields_two_digits now) as (L1 & L2 & L3 & L4 & L5).
  rewrite !length_app, L1, L2, L3, L4, L5.
  cbn [CredentialBuilder.year TimestampRecipe.nairobi_clock].
  change (3 * 60 * 60 * 1000)%Z with 10800000%Z.
  set (y := Z.to_N (DateTime.YearFromTime (now + 10800000))).
  destruct (toString_length_bounds 3 y) as [G3 L3'].
  destruct (toString_length_bounds 4 y) as [G4 L4'].
  change (10 ^ N.of_nat 3)%N with 1000%N in *.
  change (10 ^ N.of_nat 4)%N with 10000%N in *.
  split.
  - intros Hlen.
    destruct (N.lt_ge_cases y 1000) as [Hlt | Hge];
      [specialize (L3' ltac:(lia) Hlt); lia|].
    destruct (N.lt_ge_cases y 10000) as [Hlt | Hge'];
      [lia | specialize (G4 Hge'); lia].
  - intros Hr. assert (G : (1000 <= y)%N) by lia.
    assert (L : (y < 10000)%N) by lia.
    specialize (G3 G). specialize (L4' ltac:(lia) L). lia.
Qed.

Lemma getMpesaTimestamp_year_not_padded_example :
  String.length (TimestampRecipe.getMpesaTimestamp 253402290000000) = 14 <->
  (DateTime.TimeFromYear 1000 <= 253402290000000 + 10800000
     < DateTime.TimeFromYear 10000)%Z.
Proof.
  apply (getMpesaTimestamp_year_not_padded 253402290000000).
  split; vm_compute; discriminate.
Defined.


(** * Properties of the application *)

Section Routing.

Import App.

Lemma lower_slash (c : ascii) :
  Ascii.eqb (lower "/") (lower c) = true -> c = "/"%char.
Proof.
  destruct c as [[] [] [] [] [] [] [] []]; vm_compute;
    first [discriminate | reflexivity].
Qed.

(** A path under the [/send] mount starts with [/] and is longer than
    [/]. *)
Lemma mounted_send_path (path : string) :
  mounted "/send" path = true ->
  exists c rest, path = String "/" (String c rest).
Proof.
  unfold mounted. destruct path as [|c0 [|c1 rest]]; cbn [list_ascii_of_string];
    try (vm_compute; discriminate).
  - cbn [after_prefix]. destruct (Ascii.eqb (lower "/") (lower c0));
      discriminate.
  - intros H. exists c1, rest. f_equal. apply lower_slash.
    cbn [after_prefix] in H.
    destruct (Ascii.eqb (lower "/") (lower c0)); [reflexivity | discriminate].
Qed.

Lemma mounted_public_slash (rest : string) :
  mounted "public" (String "/" rest) = false.
Proof. reflexivity. Qed.

Lemma lipa_layer_fresh (G : module_scope) (N : axios_call -> settlement)
    (t : Z) (r : request) :
  lipa_layer G r (fresh t N)
    = (if passes_check r then Unanswered else Json validation_failure,
       serve G N t r).
Proof.
  unfold lipa_layer, serve. rewrite lipaController_appends.
  destruct (passes_check r); reflexivity.
Qed.

End Routing.



(** X14: only the [/send] mount reaches the provider: a preflight (OPTIONS)
    request, and a request whose path is not under [/send], start no
    outbound call, whatever their body. *)
Theorem outside_send_no_outbound
    (G : module_scope) (static_has : string -> bool)
    (N : axios_call -> settlement) (t : Z) (r : App.incoming) :
  App.method r = App.OPTIONS \/ App.mounted "/send" (App.pathname r) = false ->
  snd (App.handle G static_has N t r) = fresh t N.
Proof.
  intros H. unfold App.handle, App.dispatch.
  destruct H as [-> | ->]; [reflexivity|].
  repeat match goal with
         | |- context [if ?b then _ else _] => destruct b
         end; reflexivity.
Qed.

Lemma outside_send_no_outbound_sender :
  snd (App.handle test_scope (fun _ => true) accepting 0
         {| App.method := App.POST; App.pathname := "/sender";
            App.req := test_order |})
  = fresh 0 accepting.
Proof.
  apply (outside_send_no_outbound test_scope (fun _ => true) accepting 0
           {| App.method := App.POST; App.pathname := "/sender";
              App.req := test_order |}).
  right. vm_compute. reflexivity.
Defined.

(** X15: the static directory is mounted on ["public"], without a leading
    [/], and the path of a request starts with [/]: no request is ever
    answered with a file, whatever the directory holds. *)
Theorem static_mount_never_matches
    (G : module_scope) (static_has : string -> bool)
    (N : axios_call -> settlement) (t : Z) (r : App.incoming) :
  String.prefix "/" (App.pathname r) = true ->
  App.handle G static_has N t r = App.handle G (fun _ => false) N t r.
Proof.
  intros H. unfold App.handle, App.dispatch.
  destruct (App.pathname r) as [|c rest]; [reflexivity|].
  assert (E : c = "/"%char).
  { cbn [String.prefix] in H.
    destruct (Ascii.ascii_dec "/" c) as [<- | ] in H;
      [reflexivity | discriminate]. }
  rewrite E, mounted_public_slash. reflexivity.
Qed.

Lemma static_mount_never_matches_example :
  App.handle test_scope (fun _ => true) accepting 0
    {| App.method := App.GET; App.pathname := "/public/index.js";
       App.req := test_order |}
  = App.handle test_scope (fun _ => false) accepting 0
      {| App.method := App.GET; App.pathname := "/public/index.js";
         App.req := test_order |}.
Proof.
  apply (static_mount_never_matches test_scope (fun _ => true) accepting 0
           {| App.method := App.GET; App.pathname := "/public/index.js";
              App.req := test_order |}).
  reflexivity.
Defined.
